(** * vscode-data-preview: the preview panel and the JSON5 data provider

    A shallow embedding of the two source files of the extension,
    [DataPreview] / [DataPreviewSerializer] (the webview preview panel) and
    [Json5DataProvider] (data.providers/json5.data.provider.ts), together
    with the properties stated about them.

    JavaScript values are an inductive type, exceptions are a result type,
    the host's calls (logger, webview, file system, preview manager) are
    recorded in a trace of events, and the recursion of [getDataUrls] is
    written with open recursion and fuel so that its termination is a
    theorem and not an artefact of the embedding. *)

From Stdlib Require Import ZArith List Lia Bool Ascii.
From stdpp Require Import gmap strings.
Import ListNotations.

Set Warnings "-register-all".
Local Open Scope string_scope.
Local Open Scope list_scope.

(** ** JavaScript values and exceptions *)

Module Js.

(** A thrown JavaScript error: its [name] and its [message]. *)
Record Error := MkError { name : string; message : string }.

Definition TypeError (msg : string) : Error := MkError "TypeError" msg.

(** The outcome of running a piece of code: it returns, it throws, or the
    fuel of a recursive embedding ran out. *)
Inductive res (A : Type) : Type :=
  | Ok (a : A)
  | Throw (e : Error)
  | OutOfFuel.
Arguments Ok {A} a.
Arguments Throw {A} e.
Arguments OutOfFuel {A}.

#[global] Instance res_ret : MRet res := @Ok.
#[global] Instance res_bind : MBind res := fun A B f m =>
  match m with
  | Ok a => f a
  | Throw e => Throw e
  | OutOfFuel => OutOfFuel
  end.

(** Code with effects on the host: the events it caused, in order, and its
    outcome. Events caused before a throw stay in the trace. *)
Inductive io (E A : Type) : Type :=
  | Run (trace : list E) (out : res A).
Arguments Run {E A} trace out.

Definition trace_of {E A} (m : io E A) : list E :=
  match m with Run t _ => t end.
Definition outcome {E A} (m : io E A) : res A :=
  match m with Run _ r => r end.

#[global] Instance io_ret {E} : MRet (io E) := fun A a => Run [] (Ok a).
#[global] Instance io_bind {E} : MBind (io E) := fun A B f m =>
  match m with
  | Run t (Ok a) => match f a with Run t' r => Run (t ++ t') r end
  | Run t (Throw e) => Run t (Throw e)
  | Run t OutOfFuel => Run t OutOfFuel
  end.

(** One call of the host. *)
Definition emit {E} (e : E) : io E unit := Run [e] (Ok tt).
(** Pure code run inside effectful code. *)
Definition lift {E A} (r : res A) : io E A := Run [] r.
(** [try { body } catch (error) { handler error }]. *)
Definition try_catch {E A} (body : io E A) (handler : Error -> io E A) : io E A :=
  match body with
  | Run t (Throw e) => match handler e with Run t' r => Run (t ++ t') r end
  | other => other
  end.

(** The values the code handles: what [JSON.parse] builds, [undefined]
    (what reading an absent property gives) and the built-in method a
    string or an array inherits under the name [concat]. Numbers are only
    carried around, never computed with. An object is the list of its own
    properties; reading takes the first binding of a name. *)
Inductive value : Type :=
  | Undefined
  | Null
  | Bool (b : bool)
  | Num (n : Z)
  | Str (s : string)
  | Arr (items : list value)
  | Obj (props : list (string * value))
  | Builtin (fname : string).

(** The property names the source reads. *)
Inductive key : Type :=
  | K_data | K_transform | K_layer | K_concat | K_hconcat | K_vconcat
  | K_url | K_from | K_spec.

Definition key_name (k : key) : string :=
  match k with
  | K_data => "data" | K_transform => "transform" | K_layer => "layer"
  | K_concat => "concat" | K_hconcat => "hconcat" | K_vconcat => "vconcat"
  | K_url => "url" | K_from => "from" | K_spec => "spec"
  end.

Fixpoint own (props : list (string * value)) (k : string) : value :=
  match props with
  | [] => Undefined
  | (k', v) :: rest => if String.eqb k' k then v else own rest k
  end.

(** [v[k]] for a [v] that is neither [null] nor [undefined]. Of the names
    in [key] only [concat] is found on a prototype: [String.prototype] and
    [Array.prototype] have it, [Object.prototype], [Number.prototype],
    [Boolean.prototype] and [Function.prototype] have none of them. *)
Definition prop (v : value) (k : key) : value :=
  match v with
  | Obj props => own props (key_name k)
  | Str _ => match k with K_concat => Builtin "String.prototype.concat" | _ => Undefined end
  | Arr _ => match k with K_concat => Builtin "Array.prototype.concat" | _ => Undefined end
  | _ => Undefined
  end.

(** [v[k]] as the engine evaluates it: a [TypeError] on [null] and
    [undefined]. *)
Definition get (v : value) (k : key) : res value :=
  match v with
  | Undefined => Throw (TypeError ("Cannot read property '" +:+ key_name k +:+ "' of undefined"))
  | Null => Throw (TypeError ("Cannot read property '" +:+ key_name k +:+ "' of null"))
  | _ => Ok (prop v k)
  end.

Definition is_undefined (v : value) : bool :=
  match v with Undefined => true | _ => false end.

(** [Array.isArray]. *)
Definition isArray (v : value) : bool :=
  match v with Arr _ => true | _ => false end.

(** What [xs.concat(v)] appends to [xs]: the items of an array, and any
    other value (also [undefined]) as one item. *)
Definition concat_items (v : value) : list value :=
  match v with Arr items => items | _ => [v] end.

Definition js_concat (xs : list value) (v : value) : list value :=
  xs ++ concat_items v.

(** [xs.forEach(x => ...)] where the callback updates a captured variable:
    the variable is threaded through, and a throw ends the loop. *)
Fixpoint forEach {A S : Type} (xs : list A) (f : S -> A -> res S) (s : S) : res S :=
  match xs with
  | [] => Ok s
  | x :: rest => match f s x with
                 | Ok s' => forEach rest f s'
                 | Throw e => Throw e
                 | OutOfFuel => OutOfFuel
                 end
  end.

(** [xs.filter(p)] for a predicate that may throw. *)
Fixpoint filterM {A : Type} (p : A -> res bool) (xs : list A) : res (list A) :=
  match xs with
  | [] => Ok []
  | x :: rest => match p x with
                 | Ok b => match filterM p rest with
                           | Ok kept => Ok (if b then x :: kept else kept)
                           | Throw e => Throw e
                           | OutOfFuel => OutOfFuel
                           end
                 | Throw e => Throw e
                 | OutOfFuel => OutOfFuel
                 end
  end.

(** The size of a value; [undefined] is the only value of size 0. *)
Fixpoint size (v : value) : nat :=
  match v with
  | Undefined => 0
  | Builtin _ => 1
  | Arr items => 2 + list_sum (map size items)
  | Obj props => 2 + list_sum (map (fun p => size (snd p)) props)
  | _ => 2
  end.

End Js.

Notation "'let*' x ':=' m 'in' k" := (mbind (fun x => k) m)
  (at level 10, x name, m at level 100, k at level 200, only parsing).

(** Runs the binds of the result monad. *)
Ltac run_bind := unfold mbind, Js.res_bind, mret, Js.res_ret in *; simpl in *.

(** ** The preview panel (DataPreview and DataPreviewSerializer) *)

Module Preview.
Import Js.

(** *** Recursive extraction of data urls *)

(** The body of [getDataUrls], with the recursive call as the parameter
    [self]. [dataUrls] is the local array the source pushes to. *)
Definition getDataUrls_body (self : value -> res (list value)) (spec : value)
  : res (list value) :=
  let dataUrls : list value := [] in
  if is_undefined spec then Ok dataUrls (* base case *)
  else
    let* data := get spec K_data in
    let* transforms := get spec K_transform in
    let layers : list value := [] in
    let* l := get spec K_layer in
    let layers := js_concat layers l in
    let* l := get spec K_concat in
    let layers := js_concat layers l in
    let* l := get spec K_hconcat in
    let layers := js_concat layers l in
    let* l := get spec K_vconcat in
    let layers := js_concat layers l in
    let* dataUrls :=
      if negb (is_undefined data) then
        match data with
        | Arr ds =>
            let* defined :=
              filterM (fun d => let* u := get d K_url in Ok (negb (is_undefined u))) ds in
            forEach defined
              (fun dataUrls d => let* u := get d K_url in Ok (dataUrls ++ [u])) dataUrls
        | _ =>
            let* u := get data K_url in
            if negb (is_undefined u) then Ok (dataUrls ++ [u]) else Ok dataUrls
        end
      else Ok dataUrls in
    (* [layers] was built by [concat]: it is defined and it is an array *)
    let* dataUrls :=
      forEach layers
        (fun dataUrls layer => let* more := self layer in Ok (dataUrls ++ more))
        dataUrls in
    let* dataUrls :=
      if negb (is_undefined transforms) then
        match transforms with
        | Arr ts =>
            forEach ts
              (fun dataUrls transformData =>
                 let* from := get transformData K_from in
                 let* more := self from in
                 Ok (dataUrls ++ more))
              dataUrls
        | Null => Throw (TypeError "Cannot read property 'forEach' of null")
        | _ => Throw (TypeError "transforms.forEach is not a function")
        end
      else Ok dataUrls in
    Ok dataUrls.

Fixpoint getDataUrls_fuel (fuel : nat) (spec : value) : res (list value) :=
  match fuel with
  | O => OutOfFuel
  | S fuel' => getDataUrls_body (getDataUrls_fuel fuel') spec
  end.

(** [getDataUrls], run with fuel beyond the size of its argument. *)
Definition getDataUrls (spec : value) : res (list value) :=
  getDataUrls_fuel (S (size spec)) spec.

(** The three blocks of the body, named for the proofs: the [layers]
    array, the block that reads [data], and the loop over [transform]. *)
Definition layers_of (spec : value) : list value :=
  js_concat (js_concat (js_concat (js_concat [] (prop spec K_layer))
    (prop spec K_concat)) (prop spec K_hconcat)) (prop spec K_vconcat).

Definition data_block (data : value) (dataUrls : list value) : res (list value) :=
  if negb (is_undefined data) then
    match data with
    | Arr ds =>
        let* defined :=
          filterM (fun d => let* u := get d K_url in Ok (negb (is_undefined u))) ds in
        forEach defined
          (fun dataUrls d => let* u := get d K_url in Ok (dataUrls ++ [u])) dataUrls
    | _ =>
        let* u := get data K_url in
        if negb (is_undefined u) then Ok (dataUrls ++ [u]) else Ok dataUrls
    end
  else Ok dataUrls.

Definition transform_block (self : value -> res (list value)) (transforms : value)
    (dataUrls : list value) : res (list value) :=
  if negb (is_undefined transforms) then
    match transforms with
    | Arr ts =>
        forEach ts
          (fun dataUrls transformData =>
             let* from := get transformData K_from in
             let* more := self from in
             Ok (dataUrls ++ more))
          dataUrls
    | Null => Throw (TypeError "Cannot read property 'forEach' of null")
    | _ => Throw (TypeError "transforms.forEach is not a function")
    end
  else Ok dataUrls.

(** The urls the [data] block pushes when it does not throw. *)
Definition data_urls (data : value) : list value :=
  match data with
  | Arr ds =>
      map (fun d => prop d K_url)
        (List.filter (fun d => negb (is_undefined (prop d K_url))) ds)
  | _ => if is_undefined (prop data K_url) then [] else [prop data K_url]
  end.

(** The arguments of the recursive calls of [getDataUrls spec]: the items
    of [layers], and [t['from']] for the items [t] of [transform]. *)
Definition rec_args (spec : value) : list value :=
  match spec with
  | Undefined | Null => []
  | _ =>
      layers_of spec
      ++ match prop spec K_transform with
         | Arr ts => map (fun t => prop t K_from) ts
         | _ => []
         end
  end.

(** *** The host's data *)

Record Uri := MkUri {
  scheme : string; authority : string; path : string;
  query : string; fragment : string }.

(** [uri.with({scheme: s})]. *)
Definition with_scheme (u : Uri) (s : string) : Uri :=
  MkUri s (authority u) (path u) (query u) (fragment u).

Definition ViewColumn := Z.

Record WorkspaceFolder := MkWorkspaceFolder {
  wf_uri : Uri; wf_name : string; wf_index : nat }.

Record Template := MkTemplate { content : string }.

(** A webview panel of the host, known by its identity; [viewColumn] is
    [undefined] while the panel is not shown. *)
Record WebviewPanel := MkWebviewPanel {
  panel_id : nat; viewColumn : option ViewColumn; visible : bool }.

Record WebviewOptions := MkWebviewOptions {
  enableScripts : bool; enableCommandUris : bool;
  retainContextWhenHidden : bool; localResourceRoots : list Uri }.

(** The fields of a [DataPreview]; [_panel] is [undefined] until
    [initWebview] ran when no panel was passed to the constructor. *)
Record DataPreview := MkDataPreview {
  _extensionPath : string; _uri : Uri; _previewUri : Uri;
  _fileName : string; _title : string; _html : string;
  _panel : option WebviewPanel }.

Record DataPreviewSerializer := MkDataPreviewSerializer {
  viewType : string; extensionPath : string; template : Template }.

(** The saved state of a webview panel: [uri] is [None] when the state
    holds no uri string. *)
Record State := MkState { uri : option string }.

Inductive LogLevel := Debug | Error.

(** The messages posted to the webview. *)
Inductive message :=
  | RefreshMessage (fileName uri spec : string) (data : gmap string string)
  | ErrorMessage (error : Js.Error).

(** An entry of the file system. *)
Inductive node := File (text : string) | Directory.

(** The calls made to the host, the logger and the preview manager. A
    logger call is recorded with its level and message, without the
    values logged after it. *)
Inductive event :=
  | LogMessage (level : LogLevel) (text : string)
  | CreateWebviewPanel (viewType title : string) (column : option ViewColumn)
      (options : WebviewOptions)
  | OnDidDispose (panel : WebviewPanel)
  | OnDidChangeViewState (panel : WebviewPanel)
  | OnDidReceiveMessage (panel : WebviewPanel)
  | SetHtml (panel : WebviewPanel) (html : string)
  | Reveal (panel : WebviewPanel) (column : option ViewColumn) (preserveFocus : bool)
  | OpenTextDocument (uri : Uri)
  | PostMessage (panel : WebviewPanel) (msg : message)
  | ExistsSync (filePath dataFilePath : string)
  | ReadFileSync (filePath dataFilePath : string)
  | PreviewManagerAdd (preview : DataPreview).

(** [xs.forEach] for a callback with effects. *)
Fixpoint forEach_io {A S : Type} (xs : list A) (f : S -> A -> io event S) (s : S)
  : io event S :=
  match xs with
  | [] => mret s
  | x :: rest => let* s' := f s x in forEach_io rest f s'
  end.

(** [url.startsWith(prefix)]: only a string has the method. *)
Definition startsWith (url : value) (prefix : string) : res bool :=
  match url with
  | Str s => Ok (String.prefix prefix s)
  | Undefined | Null => Throw (TypeError "Cannot read property 'startsWith'")
  | _ => Throw (TypeError "url.startsWith is not a function")
  end.

(** [if (fileData)]: [null] and the empty string are falsy. *)
Definition truthy (fileData : option string) : bool :=
  match fileData with
  | Some s => negb (String.eqb s "")
  | None => false
  end.

(** [dataFiles[url] = fileData] on an ordinary object: assigning a string
    to [__proto__] changes nothing, any other name becomes an own
    property. *)
Definition obj_set (dataFiles : gmap string string) (url fileData : string)
  : gmap string string :=
  if String.eqb url "__proto__" then dataFiles else <[url := fileData]> dataFiles.

(** The posted messages of a trace. *)
Definition posted (t : list event) : list message :=
  flat_map (fun e => match e with PostMessage _ m => [m] | _ => [] end) t.

(** The file system accesses of a trace, by the [filePath] they were
    made for. *)
Definition accessed (t : list event) : list string :=
  flat_map (fun e => match e with
                     | ExistsSync f _ | ReadFileSync f _ => [f]
                     | _ => []
                     end) t.

Section Host.

(** The host: the editor's and Node's functions the code calls. *)
Variable fsPath : Uri -> string.
Variable Uri_file : string -> Uri.
Variable Uri_parse : string -> Uri.
Variable Uri_toString : Uri -> bool -> string.
Variable path_join : string -> string -> string.
Variable path_dirname : string -> string.
Variable path_basename : string -> string.
(** [html.replace(/\{scripts\}/g, scriptsPath)]. *)
Variable replace_scripts : string -> string -> string.
Variable getWorkspaceFolder : Uri -> option WorkspaceFolder.
Variable createWebviewPanel :
  string -> string -> option ViewColumn -> WebviewOptions -> WebviewPanel.
(** The text of the document when [openTextDocument]'s promise is
    fulfilled. *)
Variable openTextDocument : Uri -> option string.
Variable JSON_parse : string -> res value.
(** The files on disk. *)
Variable fs : string -> option node.

Definition existsSync (p : string) : bool :=
  match fs p with Some _ => true | None => false end.

Definition readFileSync (p : string) : res string :=
  match fs p with
  | Some (File text) => Ok text
  | Some Directory => Throw (MkError "Error" "EISDIR: illegal operation on a directory, read")
  | None => Throw (MkError "Error" "ENOENT: no such file or directory")
  end.

(** [this._panel], for the methods that use it. *)
Definition the_panel (this : DataPreview) : res WebviewPanel :=
  match _panel this with
  | Some p => Ok p
  | None => Throw (TypeError "Cannot read property of undefined")
  end.

Definition getLocalResourceRoots (this : DataPreview) : io event (list Uri) :=
  let localResourceRoots : list Uri := [] in
  let workspaceFolder := getWorkspaceFolder (_uri this) in
  let localResourceRoots :=
    match workspaceFolder with
    | Some folder => localResourceRoots ++ [wf_uri folder]
    | None =>
        if String.eqb (scheme (_uri this)) "" || String.eqb (scheme (_uri this)) "file"
        then localResourceRoots ++ [Uri_file (path_dirname (fsPath (_uri this)))]
        else localResourceRoots
    end in
  (* add vega preview js scripts *)
  let localResourceRoots :=
    localResourceRoots ++ [Uri_file (path_join (_extensionPath this) "scripts")] in
  let* _ := emit (LogMessage Debug "getLocalResourceRoots():") in
  mret localResourceRoots.

Definition getWebviewOptions (this : DataPreview) : io event WebviewOptions :=
  let* roots := getLocalResourceRoots this in
  mret (MkWebviewOptions true true true roots).

Definition set_panel (this : DataPreview) (p : WebviewPanel) : DataPreview :=
  MkDataPreview (_extensionPath this) (_uri this) (_previewUri this)
    (_fileName this) (_title this) (_html this) (Some p).

Definition initWebview (this : DataPreview) (viewType : string)
    (viewColumn : option ViewColumn) : io event DataPreview :=
  let* this :=
    match _panel this with
    | Some _ => mret this
    | None =>
        (* create new webview panel *)
        let* options := getWebviewOptions this in
        let* _ := emit (CreateWebviewPanel viewType (_title this) viewColumn options) in
        mret (set_panel this (createWebviewPanel viewType (_title this) viewColumn options))
    end in
  let* panel := lift (the_panel this) in
  let* _ := emit (OnDidDispose panel) in
  let* _ := emit (OnDidChangeViewState panel) in
  let* _ := emit (OnDidReceiveMessage panel) in
  mret this.

Definition configure (this : DataPreview) : io event unit :=
  let* panel := lift (the_panel this) in
  emit (SetHtml panel (_html this)).

(** [new DataPreview(viewType, extensionPath, uri, viewColumn, template, panel)]. *)
Definition new_DataPreview (viewType extensionPath : string) (uri : Uri)
    (viewColumn : option ViewColumn) (template : Template)
    (panel : option WebviewPanel) : io event DataPreview :=
  let fileName := path_basename (fsPath uri) in
  let previewUri := with_scheme uri "data" in
  let title :=
    if String.eqb viewType "data.preview"
    then "Data Preview " +:+ fileName +:+ " 🈸"
    else "Data Help" in
  let scriptsPath :=
    Uri_toString (with_scheme (Uri_file (path_join extensionPath "scripts")) "vscode-resource")
      true in
  let html := replace_scripts (content template) scriptsPath in
  let this := MkDataPreview extensionPath uri previewUri fileName title html panel in
  let* this := initWebview this viewType viewColumn in
  let* _ := configure this in
  mret this.

(** [path.join(path.dirname(this._uri.fsPath), filePath)]. *)
Definition resolve (this : DataPreview) (filePath : string) : string :=
  path_join (path_dirname (fsPath (_uri this))) filePath.

(** Loads the content of a local data file: [null] when it does not
    exist. [path.join] throws on an argument that is not a string. *)
Definition getFileData (this : DataPreview) (filePath : value) : io event (option string) :=
  let data : option string := None in
  match filePath with
  | Str filePath =>
      let dataFilePath := resolve this filePath in
      let* _ := emit (ExistsSync filePath dataFilePath) in
      if existsSync dataFilePath then
        let* _ := emit (ReadFileSync filePath dataFilePath) in
        let* text := lift (readFileSync dataFilePath) in
        mret (Some text)
      else
        let* _ := emit (LogMessage Error "getFileData():") in
        mret data
  | _ => lift (Throw (TypeError "The path argument must be of type string"))
  end.

(** The callback of the loop of [getData] over the local urls. A url that
    passed the filter is a string. *)
Definition getData_step (this : DataPreview) (dataFiles : gmap string string)
    (url : value) : io event (gmap string string) :=
  let* fileData := getFileData this url in
  let dataFiles :=
    if truthy fileData then
      match url, fileData with
      | Str u, Some text => obj_set dataFiles u text
      | _, _ => dataFiles
      end
    else dataFiles in
  let* _ := emit (LogMessage Debug "getData(): localDataUrl:") in
  mret dataFiles.

(** The urls [getData] loads from: those of the spec, then those of
    [spec['spec']]. *)
Definition allDataUrls (spec : value) : res (list value) :=
  (* get top level data urls *)
  let* dataUrls := getDataUrls spec in
  (* add nested spec data urls for view compositions *)
  let* nested := get spec K_spec in
  let* more := getDataUrls nested in
  Ok (dataUrls ++ more).

Definition is_local (url : value) : res bool :=
  let* http := startsWith url "http" in Ok (negb http).

Definition getData (this : DataPreview) (spec : value) : io event (gmap string string) :=
  let dataFiles : gmap string string := empty in
  let* dataUrls := lift (allDataUrls spec) in
  let* _ := emit (LogMessage Debug "getData(): dataUrls:") in
  (* get all local files data *)
  let* localUrls := lift (filterM is_local dataUrls) in
  forEach_io localUrls (getData_step this) dataFiles.

(** The callback of [refresh], run on the text of the opened document. *)
Definition refresh_document (this : DataPreview) (panel : WebviewPanel)
    (vegaSpec : string) : io event unit :=
  let* _ := emit (LogMessage Debug "refresh(): file:") in
  try_catch
    (let* spec := lift (JSON_parse vegaSpec) in
     let* data := getData this spec in
     emit (PostMessage panel
             (RefreshMessage (_fileName this) (Uri_toString (_uri this) false) vegaSpec data)))
    (fun error =>
       let* _ := emit (LogMessage Error "refresh():") in
       emit (PostMessage panel (ErrorMessage error))).

Definition refresh (this : DataPreview) : io event unit :=
  let* panel := lift (the_panel this) in
  (* reveal corresponding data preview panel, preserving focus *)
  let* _ := emit (Reveal panel (viewColumn panel) true) in
  let* _ := emit (OpenTextDocument (_uri this)) in
  match openTextDocument (_uri this) with
  | Some vegaSpec => refresh_document this panel vegaSpec
  | None => mret tt
  end.

(** [DataPreviewSerializer.deserializeWebviewPanel]; [state.uri.toString()]
    throws when the state has no uri. *)
Definition deserializeWebviewPanel (this : DataPreviewSerializer)
    (webviewPanel : WebviewPanel) (state : State) : io event unit :=
  let* stateUri :=
    lift (match uri state with
          | Some u => Ok u
          | None => Throw (TypeError "Cannot read property 'toString' of undefined")
          end) in
  let* _ := emit (LogMessage Debug "deserializeWeviewPanel(): url:") in
  let* preview :=
    new_DataPreview (viewType this) (extensionPath this) (Uri_parse stateUri)
      (viewColumn webviewPanel) (template this) (Some webviewPanel) in
  emit (PreviewManagerAdd preview).

End Host.

(** *** The data urls of a spec, as the documentation describes them *)

(** [embedded spec u]: [u] is a data url of one of the shapes named for
    [getDataUrls]: the url of the [data] object, the url of an item of the
    [data] array, a url embedded in an item of [layer], [concat],
    [hconcat] or [vconcat] (a value that is no array counting as its only
    item), or a url embedded in [t['from']] for an item [t] of
    [transform]. *)
Inductive embedded : value -> value -> Prop :=
  | emb_data_object spec u :
      isArray (prop spec K_data) = false ->
      prop (prop spec K_data) K_url = u -> u <> Undefined ->
      embedded spec u
  | emb_data_array spec ds d u :
      prop spec K_data = Arr ds -> In d ds ->
      prop d K_url = u -> u <> Undefined ->
      embedded spec u
  | emb_layer spec k item u :
      In k [K_layer; K_concat; K_hconcat; K_vconcat] ->
      In item (concat_items (prop spec k)) ->
      embedded item u ->
      embedded spec u
  | emb_transform spec ts t u :
      prop spec K_transform = Arr ts -> In t ts ->
      embedded (prop t K_from) u ->
      embedded spec u.

(** A value whose properties can be read. *)
Definition readable (v : value) : Prop := v <> Null /\ v <> Undefined.

Definition data_safe (data : value) : Prop :=
  match data with
  | Undefined => True
  | Arr ds => forall d, In d ds -> readable d
  | Null => False
  | _ => True
  end.

Definition transform_safe (transforms : value) : Prop :=
  match transforms with
  | Undefined => True
  | Arr ts => forall t, In t ts -> readable t
  | _ => False
  end.

(** [safe spec]: the traversal of [spec] meets no [null] where it reads a
    property and no [transform] that is not an array. *)
Inductive safe : value -> Prop :=
  | safe_undefined : safe Undefined
  | safe_spec spec :
      readable spec ->
      data_safe (prop spec K_data) ->
      (forall k item, In k [K_layer; K_concat; K_hconcat; K_vconcat] ->
         In item (concat_items (prop spec k)) -> safe item) ->
      transform_safe (prop spec K_transform) ->
      (forall ts t, prop spec K_transform = Arr ts -> In t ts ->
         safe (prop t K_from)) ->
      safe spec.

(** What the loop over [transforms] appends, one list per item, when it
    does not throw. *)
Definition transform_results (self : value -> res (list value)) (transforms : value)
    (rs : list (list value)) : Prop :=
  (transforms = Undefined /\ rs = []) \/
  exists ts, transforms = Arr ts /\
    Forall2 (fun t r => readable t /\ self (prop t K_from) = Ok r) ts rs.

(** [referenced spec u]: [u] is a data url of the spec or of a spec nested
    in it through the [spec] keyword, at any depth. *)
Inductive referenced : value -> value -> Prop :=
  | ref_here spec u : embedded spec u -> referenced spec u
  | ref_nested spec u : referenced (prop spec K_spec) u -> referenced spec u.

End Preview.

(** ** The JSON5 data provider *)

Module Json5DataProvider.
Import Js.

(** The calls the provider makes: the logger (message and parameter), the
    editor's error message and the [loadData] callback. *)
Inductive event (T : Type) :=
  | LogError (text param : string)
  | ShowErrorMessage (text : string)
  | LoadData (data : T).
Arguments LogError {T} text param.
Arguments ShowErrorMessage {T} text.
Arguments LoadData {T} data.

Definition supportedDataFileTypes : list string := [".json5"].

(** A line feed and a tab, as the messages have them. *)
Definition nl_tab : string :=
  String (Ascii.ascii_of_nat 10) (String (Ascii.ascii_of_nat 9) EmptyString).

Section Provider.

(** The common representation [convertJsonData] produces. *)
Variable T : Type.
(** [fileUtils.readDataFile(dataUrl, 'utf8')], [json5.parse] and
    [jsonUtils.convertJsonData]: each returns or throws. *)
Variable readDataFile : string -> res string.
Variable json5_parse : string -> res value.
Variable convertJsonData : value -> res T.

(** [getData(dataUrl, parseOptions, loadData)]; the calls of [loadData]
    are the [LoadData] events. *)
Definition getData (dataUrl : string) (parseOptions : value) : io (event T) unit :=
  let data : value := Arr [] in
  let* data :=
    try_catch
      (let* content := lift (readDataFile dataUrl) in
       let* parsed := lift (json5_parse content) in
       mret parsed)
      (fun error =>
         let* _ := emit (LogError
           ("getData(): Error parsing '" +:+ dataUrl +:+ "' " +:+ nl_tab +:+ " Error:")
           (message error)) in
         let* _ := emit (ShowErrorMessage
           ("Unable to parse data file: '" +:+ dataUrl +:+ "'. " +:+ nl_tab +:+ " Error: "
            +:+ message error)) in
         mret data) in
  let* converted := lift (convertJsonData data) in
  emit (LoadData converted).

End Provider.

(** None for json data files. *)
Definition getDataTableNames (dataUrl : string) : list string := [].

(** None for json data files. *)
Definition getDataSchema (dataUrl : string) : value := Null.

(** The [loadData] calls of a trace. *)
Definition loaded {T} (t : list (event T)) : list T :=
  flat_map (fun e => match e with LoadData d => [d] | _ => [] end) t.

(** The error messages shown to the user in a trace. *)
Definition shown {T} (t : list (event T)) : list string :=
  flat_map (fun e => match e with ShowErrorMessage m => [m] | _ => [] end) t.

End Json5DataProvider.

(** ** Sample inputs *)

Module Samples.
Import Js Preview.

(** A layered chart with a lookup transform:
    [{"data": {"url": "a.csv"},
      "layer": [{"data": {"url": "b.csv"}, "mark": "line"}, {"mark": "point"}],
      "transform": [{"lookup": "k", "from": {"data": {"url": "c.csv"}, "key": "k"}}]}]. *)
Definition layered_spec : value :=
  Obj [("data", Obj [("url", Str "a.csv")]);
       ("layer", Arr [Obj [("data", Obj [("url", Str "b.csv")]); ("mark", Str "line")];
                      Obj [("mark", Str "point")]]);
       ("transform", Arr [Obj [("lookup", Str "k");
                               ("from", Obj [("data", Obj [("url", Str "c.csv")]);
                                             ("key", Str "k")])]])].

(** A layer that drops the data of its parent:
    [{"data": {"url": "a.csv"}, "layer": [{"data": null, "mark": "rule"}]}]. *)
Definition null_data_spec : value :=
  Obj [("data", Obj [("url", Str "a.csv")]);
       ("layer", Arr [Obj [("data", Null); ("mark", Str "rule")]])].

(** A repeated facet, the data two [spec] keywords deep:
    [{"repeat": ["x"], "spec": {"facet": "f", "spec": {"data": {"url": "a.csv"}}}}]. *)
Definition nested_spec : value :=
  Obj [("repeat", Arr [Str "x"]);
       ("spec", Obj [("facet", Str "f");
                     ("spec", Obj [("data", Obj [("url", Str "a.csv")])])])].

(** A chart on remote data with a layer on a local file that is missing:
    [{"data": {"url": "https://host/cars.json"},
      "layer": [{"data": {"url": "c.csv"}, "mark": "bar"}]}]. *)
Definition remote_spec : value :=
  Obj [("data", Obj [("url", Str "https://host/cars.json")]);
       ("layer", Arr [Obj [("data", Obj [("url", Str "c.csv")]); ("mark", Str "bar")]])].

(** A small POSIX host: paths are joined with a slash, the directory of a
    path is what stands before its last slash. *)
Definition posix_fsPath (u : Uri) : string := path u.

Definition posix_join (a b : string) : string := a +:+ "/" +:+ b.

Fixpoint before_last_slash (p : string) : option string :=
  match p with
  | EmptyString => None
  | String c rest =>
      match before_last_slash rest with
      | Some d => Some (String c d)
      | None => if Ascii.eqb c "/"%char then Some EmptyString else None
      end
  end.

Definition posix_dirname (p : string) : string :=
  match before_last_slash p with
  | Some EmptyString => "/"
  | Some d => d
  | None => "."
  end.

Fixpoint after_last_slash (p : string) : string :=
  match p with
  | EmptyString => EmptyString
  | String c rest =>
      match before_last_slash rest with
      | Some _ => after_last_slash rest
      | None => if Ascii.eqb c "/"%char then rest else p
      end
  end.

Definition posix_basename (p : string) : string := after_last_slash p.

Definition file_uri (p : string) : Uri := MkUri "file" "" p "" "".

(** A disk with two of the data files of [layered_spec] next to the
    chart, [b.csv] being empty, a file named [__proto__] and a directory. *)
Definition disk (p : string) : option node :=
  if String.eqb p "/work/a.csv" then Some (File "x,y")
  else if String.eqb p "/work/b.csv" then Some (File "")
  else if String.eqb p "/work/__proto__" then Some (File "p,q")
  else if String.eqb p "/work/sub" then Some Directory
  else None.

Definition chart_panel : WebviewPanel := MkWebviewPanel 1 (Some 2%Z) true.

Definition chart_preview : DataPreview :=
  MkDataPreview "/ext" (file_uri "/work/chart.vl.json")
    (with_scheme (file_uri "/work/chart.vl.json") "data")
    "chart.vl.json" "Data Preview chart.vl.json 🈸" "<html></html>" (Some chart_panel).

Definition chart_serializer : DataPreviewSerializer :=
  MkDataPreviewSerializer "data.preview" "/ext" (MkTemplate "<html></html>").

(** The rest of a host, reduced to what the examples need: uris are
    printed as scheme and path, a saved uri is read as a file uri, the
    template has no marker to replace, no workspace folder is open, and
    the document of the chart is cut short. *)
Definition uri_text (u : Uri) (skipEncoding : bool) : string :=
  scheme u +:+ "://" +:+ path u.

Definition parse_file_uri (s : string) : Uri :=
  file_uri (if String.prefix "file://" s
            then String.substring 7 (String.length s - 7) s
            else s).

Definition keep_html (html scriptsPath : string) : string := html.

Definition no_workspace (u : Uri) : option WorkspaceFolder := None.

Definition new_panel (viewType title : string) (column : option ViewColumn)
    (options : WebviewOptions) : WebviewPanel :=
  MkWebviewPanel 0 column true.

Definition cut_document (u : Uri) : option string := Some "{ data: ".

Definition strict_parse (text : string) : res value :=
  if String.eqb text "{ data: "
  then Throw (MkError "SyntaxError" "Unexpected token d in JSON at position 2")
  else Ok Null.

(** A data file for the provider, its relaxed-JSON reading, and a
    normalization that wraps what is no array into one. *)
Definition read_json5 (dataUrl : string) : res string :=
  if String.eqb dataUrl "/work/points.json5" then Ok "[1, 2,]"
  else Throw (MkError "Error" "ENOENT: no such file or directory").

Definition parse_json5 (content : string) : res value :=
  if String.eqb content "[1, 2,]" then Ok (Arr [Num 1; Num 2])
  else Throw (MkError "SyntaxError" "JSON5: invalid character").

Definition to_rows (data : value) : res value :=
  Ok (match data with Arr _ => data | _ => Arr [data] end).

End Samples.

(** ** The rest of the preview panel: messages, disposal, trace readings *)

Module PreviewExtra.
Import Js Preview.

(** [message.command] for a message received from the webview: a
    [TypeError] on [null] and [undefined]; only an object has an own
    property of that name, and no prototype has one. *)
Definition message_command (message : value) : res value :=
  match message with
  | Undefined => Throw (TypeError "Cannot read property 'command' of undefined")
  | Null => Throw (TypeError "Cannot read property 'command' of null")
  | Obj props => Ok (own props "command")
  | _ => Ok Undefined
  end.

(** [case 'refresh':] of the [switch], which compares with [===]. *)
Definition is_refresh (command : value) : bool :=
  match command with
  | Str s => String.eqb s "refresh"
  | _ => false
  end.

(** The urls of a list that are strings and do not start with [http], in
    order. *)
Definition local_strings (urls : list value) : list string :=
  flat_map (fun url => match url with
                       | Str s => if String.prefix "http" s then [] else [s]
                       | _ => []
                       end) urls.

(** The [existsSync] and the [readFileSync] calls of a trace, by the
    [filePath] they were made for. *)
Definition exists_calls (t : list event) : list string :=
  flat_map (fun e => match e with ExistsSync f _ => [f] | _ => [] end) t.

Definition read_calls (t : list event) : list string :=
  flat_map (fun e => match e with ReadFileSync f _ => [f] | _ => [] end) t.

(** The events [getData] may cause: logger and file system calls. *)
Definition log_or_fs (e : event) : Prop :=
  match e with
  | LogMessage _ _ | ExistsSync _ _ | ReadFileSync _ _ => True
  | _ => False
  end.

Section Host.

Variable fsPath : Uri -> string.
Variable Uri_toString : Uri -> bool -> string.
Variable path_join : string -> string -> string.
Variable path_dirname : string -> string.
Variable openTextDocument : Uri -> option string.
Variable JSON_parse : string -> res value.
Variable fs : string -> option node.

(** The listener [initWebview] passes to [webview.onDidReceiveMessage]. *)
Definition receiveMessage (this : DataPreview) (message : value) : io event unit :=
  let* command := lift (message_command message) in
  if is_refresh command
  then refresh fsPath Uri_toString path_join path_dirname openTextDocument JSON_parse fs this
  else mret tt.

End Host.

(** *** Disposal *)

(** A disposable of the host, known by its identity; an entry of
    [_disposables] may be [undefined]. *)
Definition Disposable := nat.

Inductive dispose_event :=
  | PreviewManagerRemove (preview : DataPreview)
  | PanelDispose (panel : WebviewPanel)
  | ItemDispose (item : Disposable).

(** The items of the array that are defined. *)
Definition defined_items (disposables : list (option Disposable)) : list Disposable :=
  flat_map (fun item => match item with Some d => [d] | None => [] end) disposables.

(** [while (this._disposables.length) { item = pop(); if (item) item.dispose(); }]
    with one unit of fuel per round; [pop] takes the last entry. *)
Fixpoint dispose_loop (fuel : nat) (disposables : list (option Disposable))
  : io dispose_event (list (option Disposable)) :=
  match fuel with
  | O => Run [] OutOfFuel
  | S fuel' =>
      if Nat.eqb (length disposables) 0 then mret disposables
      else
        let item := List.last disposables None in
        let disposables := List.removelast disposables in
        let* _ := match item with
                  | Some d => emit (ItemDispose d)
                  | None => mret tt
                  end in
        dispose_loop fuel' disposables
  end.

Section Disposal.

(** What the host leaves of [_disposables] when [panel.dispose()] returns
    (it may run the listeners registered on the panel). *)
Variable panel_disposed : list (option Disposable) -> list (option Disposable).

(** [dispose()], for a preview whose [_disposables] array is
    [disposables]; it returns the array it leaves. *)
Definition dispose (this : DataPreview) (disposables : list (option Disposable))
  : io dispose_event (list (option Disposable)) :=
  let* _ := emit (PreviewManagerRemove this) in
  let* panel := lift (match _panel this with
                      | Some p => Ok p
                      | None => Throw (TypeError "Cannot read property 'dispose' of undefined")
                      end) in
  let* _ := emit (PanelDispose panel) in
  let disposables := panel_disposed disposables in
  dispose_loop (S (length disposables)) disposables.

End Disposal.

End PreviewExtra.

(** Further sample inputs. *)

Module ExtraSamples.
Import Js Preview Samples.

(** A chart whose data url is a number: [{"data": {"url": 5}}]. *)
Definition number_url_spec : value := Obj [("data", Obj [("url", Num 5)])].

(** The layered chart with properties [getDataUrls] does not read. *)
Definition decorated_spec : value :=
  match layered_spec with
  | Obj props => Obj (("title", Str "t") :: ("spec", nested_spec) :: props)
  | other => other
  end.

(** The document of the layered chart and a parser that knows it. *)
Definition layered_text : string := "{layered}".

Definition layered_document (u : Uri) : option string := Some layered_text.

Definition layered_parse (text : string) : res value :=
  if String.eqb text layered_text then Ok layered_spec
  else Throw (MkError "SyntaxError" "Unexpected token").

(** The document of the chart with a [null] data layer. *)
Definition null_data_document (u : Uri) : option string := Some "{null data}".

Definition null_data_parse (text : string) : res value :=
  if String.eqb text "{null data}" then Ok null_data_spec
  else Throw (MkError "SyntaxError" "Unexpected token").

(** A normalization that refuses [null]. *)
Definition rows_or_throw (data : value) : res value :=
  match data with
  | Null => Throw (TypeError "Cannot convert undefined or null to object")
  | Arr _ => Ok data
  | _ => Ok (Arr [data])
  end.

Definition read_null (dataUrl : string) : res string := Ok "null".

Definition parse_null (content : string) : res value :=
  if String.eqb content "null" then Ok Null
  else Throw (MkError "SyntaxError" "JSON5: invalid character").

End ExtraSamples.

(** ** Properties *)

(** *** Values, sizes and loops *)

Module JsFacts.
Import Js.

Lemma size_own props k :
  size (own props k) <= list_sum (map (fun p => size (snd p)) props).
Proof.
  induction props as [|[k' v] rest IH]; simpl; [lia|].
  destruct (String.eqb k' k); lia.
Qed.

Lemma size_item items item :
  In item items -> size item <= list_sum (map size items).
Proof.
  induction items as [|x rest IH]; simpl; [tauto|].
  intros [->|Hin]; [lia|]. specialize (IH Hin). lia.
Qed.

Lemma size_prop_le v k : size (prop v k) <= size v.
Proof.
  destruct v; simpl; try lia.
  - destruct k; simpl; lia.
  - destruct k; simpl; lia.
  - pose proof (size_own props (key_name k)). lia.
Qed.

Lemma size_prop_lt v k : v <> Undefined -> size (prop v k) < size v.
Proof.
  intros Hv. destruct v; simpl; try lia.
  - congruence.
  - destruct k; simpl; lia.
  - destruct k; simpl; lia.
  - pose proof (size_own props (key_name k)). lia.
Qed.

Lemma size_concat_items v item :
  In item (concat_items v) -> size item <= size v.
Proof.
  destruct v; simpl; try (intros [<-|[]]; simpl; lia).
  intros Hin. apply size_item in Hin. lia.
Qed.

Lemma get_readable v k :
  v <> Null -> v <> Undefined -> get v k = Ok (prop v k).
Proof. destruct v; simpl; congruence. Qed.

Lemma get_Ok v k w : get v k = Ok w -> v <> Null /\ v <> Undefined /\ w = prop v k.
Proof. destruct v; simpl; intros H; inversion H; repeat split; congruence. Qed.

Lemma is_undefined_true v : is_undefined v = true <-> v = Undefined.
Proof. destruct v; simpl; split; congruence. Qed.

Lemma is_undefined_false v : is_undefined v = false <-> v <> Undefined.
Proof. destruct v; simpl; split; congruence. Qed.

(** A loop only depends on what its callback does on the items. *)
Lemma forEach_ext {A S} (xs : list A) (f g : S -> A -> res S) s :
  (forall s x, In x xs -> f s x = g s x) ->
  forEach xs f s = forEach xs g s.
Proof.
  revert s. induction xs as [|x rest IH]; intros s Hfg; simpl; [reflexivity|].
  rewrite <- (Hfg s x) by (left; reflexivity).
  destruct (f s x); try reflexivity.
  apply IH. intros s' y Hy. apply Hfg. right. exact Hy.
Qed.

Lemma forEach_fuel {A S} (xs : list A) (f : S -> A -> res S) s :
  (forall s x, In x xs -> f s x <> OutOfFuel) ->
  forEach xs f s <> OutOfFuel.
Proof.
  revert s. induction xs as [|x rest IH]; intros s Hf; simpl; [congruence|].
  pose proof (Hf s x (or_introl eq_refl)) as Hx.
  destruct (f s x); try congruence.
  apply IH. intros s' y Hy. apply Hf. right. exact Hy.
Qed.

Lemma filterM_fuel {A} (p : A -> res bool) xs :
  (forall x, In x xs -> p x <> OutOfFuel) ->
  filterM p xs <> OutOfFuel.
Proof.
  induction xs as [|x rest IH]; intros Hp; simpl; [congruence|].
  pose proof (Hp x (or_introl eq_refl)) as Hx.
  destruct (p x); try congruence.
  assert (filterM p rest <> OutOfFuel) as Hrest
    by (apply IH; intros y Hy; apply Hp; right; exact Hy).
  destruct (filterM p rest); congruence.
Qed.

(** A filter returns exactly when its predicate returns on every item. *)
Lemma filterM_Ok {A} (p : A -> res bool) (q : A -> bool) xs :
  (forall x, In x xs -> p x = Ok (q x)) ->
  filterM p xs = Ok (List.filter q xs).
Proof.
  induction xs as [|x rest IH]; intros Hp; simpl; [reflexivity|].
  rewrite (Hp x) by (left; reflexivity).
  rewrite IH by (intros y Hy; apply Hp; right; exact Hy).
  destruct (q x); reflexivity.
Qed.

Lemma filterM_Ok_inv {A} (p : A -> res bool) xs kept :
  filterM p xs = Ok kept ->
  (forall x, In x xs -> exists b, p x = Ok b) /\
  (forall x, In x kept <-> In x xs /\ p x = Ok true).
Proof.
  revert kept. induction xs as [|x rest IH]; intros kept; simpl.
  - intros H. inversion H; subst. split; [intros ? []|]. simpl. tauto.
  - destruct (p x) as [b| |] eqn:Hx; try discriminate.
    destruct (filterM p rest) as [kept'| |]; try discriminate.
    intros H. inversion H; subst. destruct (IH kept' eq_refl) as [IH1 IH2].
    split.
    + intros y [<-|Hy]; [eauto|auto].
    + intros y. destruct b; simpl; rewrite IH2.
      * split.
        -- intros [<-|[Hy Hpy]]; [auto|auto].
        -- intros [[<-|Hy] Hpy]; [auto|auto].
      * split.
        -- intros [Hy Hpy]; auto.
        -- intros [[<-|Hy] Hpy]; [congruence|auto].
Qed.

(** The loops of [getDataUrls] append what a function gives for each
    item. *)
Lemma forEach_append_Ok {A B} (F : A -> res (list B)) xs rs acc :
  Forall2 (fun x r => F x = Ok r) xs rs ->
  forEach xs (fun acc x => let* more := F x in Ok (acc ++ more)) acc
  = Ok (acc ++ concat rs).
Proof.
  intros H. revert acc. induction H as [|x r xs rs Hx _ IH]; intros acc; simpl.
  - rewrite app_nil_r. reflexivity.
  - rewrite Hx. simpl. rewrite IH, app_assoc. reflexivity.
Qed.

Lemma forEach_append_inv {A B} (F : A -> res (list B)) xs acc out :
  forEach xs (fun acc x => let* more := F x in Ok (acc ++ more)) acc = Ok out ->
  exists rs, Forall2 (fun x r => F x = Ok r) xs rs /\ out = acc ++ concat rs.
Proof.
  revert acc. induction xs as [|x rest IH]; intros acc; simpl.
  - intros H. inversion H; subst. exists []. split; [constructor|].
    simpl. rewrite app_nil_r. reflexivity.
  - destruct (F x) as [r| |] eqn:Hx; simpl; try discriminate.
    intros H. destruct (IH _ H) as (rs & Hrs & ->).
    exists (r :: rs). split; [constructor; assumption|].
    simpl. rewrite app_assoc. reflexivity.
Qed.

End JsFacts.

(** *** The traversal of the spec *)

Module PreviewFacts.
Import Js JsFacts Preview.

Lemma readable_get v k : readable v -> get v k = Ok (prop v k).
Proof. intros [Hn Hu]. apply get_readable; assumption. Qed.

(** The body on [undefined], on [null], and on any other value. *)
Lemma body_undefined self : getDataUrls_body self Undefined = Ok [].
Proof. reflexivity. Qed.

Lemma body_null self : exists e, getDataUrls_body self Null = Throw e.
Proof. eexists. reflexivity. Qed.

Lemma body_blocks self spec :
  readable spec ->
  getDataUrls_body self spec =
    let* dataUrls := data_block (prop spec K_data) [] in
    let* dataUrls :=
      forEach (layers_of spec)
        (fun dataUrls layer => let* more := self layer in Ok (dataUrls ++ more))
        dataUrls in
    transform_block self (prop spec K_transform) dataUrls.
Proof.
  intros Hr. unfold getDataUrls_body.
  destruct (is_undefined spec) eqn:Hu.
  { apply is_undefined_true in Hu. destruct Hr. contradiction. }
  rewrite !(readable_get spec) by assumption.
  unfold data_block, transform_block, layers_of. run_bind.
  destruct (if negb (is_undefined (prop spec K_data)) then _ else _); try reflexivity.
  destruct (forEach _ _ _); try reflexivity.
  destruct (if negb (is_undefined (prop spec K_transform)) then _ else _); reflexivity.
Qed.

Lemma layers_of_items spec item :
  In item (layers_of spec) <->
  exists k, In k [K_layer; K_concat; K_hconcat; K_vconcat] /\
            In item (concat_items (prop spec k)).
Proof.
  unfold layers_of, js_concat. simpl. rewrite !in_app_iff. split.
  - intros [[[H|H]|H]|H]; eauto 10.
  - intros (k & Hk & Hin). simpl in Hk.
    destruct Hk as [<-|[<-|[<-|[<-|[]]]]]; tauto.
Qed.

(** Every recursive call is on a strictly smaller value. *)
Lemma rec_args_smaller spec arg :
  In arg (rec_args spec) -> size arg < size spec.
Proof.
  unfold rec_args. intros Hin.
  assert (spec <> Undefined) as Hspec by (intros ->; destruct Hin).
  assert (In arg (layers_of spec) \/
          exists ts t, prop spec K_transform = Arr ts /\ In t ts /\ arg = prop t K_from)
    as [Hl|(ts & t & Hts & Ht & ->)].
  { destruct spec; try congruence; try (destruct Hin; fail);
      apply in_app_iff in Hin as [Hin|Hin]; auto;
      right; destruct (prop _ K_transform) eqn:E; try destruct Hin;
      apply in_map_iff in Hin as (t & <- & Ht); eauto. }
  - apply layers_of_items in Hl as (k & _ & Hitem).
    apply size_concat_items in Hitem.
    pose proof (size_prop_lt spec k Hspec). lia.
  - pose proof (size_prop_lt spec K_transform Hspec) as Hlt.
    rewrite Hts in Hlt. simpl in Hlt.
    pose proof (size_item ts t Ht). pose proof (size_prop_le t K_from). lia.
Qed.

Lemma rec_args_layers spec item :
  readable spec -> In item (layers_of spec) -> In item (rec_args spec).
Proof.
  intros [Hnull Hundef] Hin. unfold rec_args.
  destruct spec; try congruence; apply in_app_iff; left; exact Hin.
Qed.

Lemma rec_args_from spec ts t :
  readable spec -> prop spec K_transform = Arr ts -> In t ts ->
  In (prop t K_from) (rec_args spec).
Proof.
  intros [Hnull Hundef] Hts Ht. unfold rec_args.
  destruct spec; try congruence; apply in_app_iff; right; rewrite Hts;
    apply in_map_iff; exists t; (split; [reflexivity|exact Ht]).
Qed.

Lemma readable_cases spec :
  spec = Undefined \/ spec = Null \/ readable spec.
Proof. destruct spec; auto; right; right; split; congruence. Qed.

(** The body consults [self] on the recursive arguments only. *)
Lemma body_ext self self' spec :
  (forall arg, In arg (rec_args spec) -> self arg = self' arg) ->
  getDataUrls_body self spec = getDataUrls_body self' spec.
Proof.
  intros Hext. destruct (readable_cases spec) as [->|[->|Hr]]; try reflexivity.
  assert (spec <> Undefined) as Hspec by apply Hr.
  rewrite !body_blocks by assumption.
  destruct (data_block (prop spec K_data) []) as [urls| |]; try reflexivity.
  run_bind.
  rewrite (forEach_ext (layers_of spec) _
             (fun dataUrls layer => match self' layer with
                                    | Ok a => Ok (dataUrls ++ a)
                                    | Throw e => Throw e
                                    | OutOfFuel => OutOfFuel
                                    end)).
  2:{ intros s x Hx. rewrite (Hext x); [reflexivity|].
      apply rec_args_layers; assumption. }
  destruct (forEach (layers_of spec) _ urls) as [urls'| |]; try reflexivity.
  unfold transform_block.
  destruct (negb (is_undefined (prop spec K_transform))); [|reflexivity].
  destruct (prop spec K_transform) as [| | | | |ts| |] eqn:Hts; try reflexivity.
  apply forEach_ext. intros s t Ht. run_bind.
  destruct (get t K_from) as [from| |] eqn:Hfrom; try reflexivity.
  apply get_Ok in Hfrom as (_ & _ & ->).
  rewrite (Hext (prop t K_from)); [reflexivity|].
  eapply rec_args_from; eassumption.
Qed.

Lemma data_block_fuel data acc : data_block data acc <> OutOfFuel.
Proof.
  unfold data_block. destruct (negb (is_undefined data)); [|congruence].
  assert (forall v k, get v k <> OutOfFuel) as Hget by (intros [] ?; simpl; congruence).
  destruct data; run_bind; try congruence;
    try (match goal with |- context [if ?b then _ else _] => destruct b end; congruence).
  - pose proof (filterM_fuel
      (fun d => match get d K_url with
                | Ok a => Ok (negb (is_undefined a))
                | Throw e => Throw e
                | OutOfFuel => OutOfFuel
                end) items) as Hf.
    destruct (filterM _ items) as [kept| |]; try congruence.
    + apply forEach_fuel. intros s x _. specialize (Hget x K_url).
      destruct (get x K_url); congruence.
    + apply Hf. intros x _. specialize (Hget x K_url).
      destruct (get x K_url); congruence.
Qed.

(** The body runs out of fuel only if a recursive call does. *)
Lemma body_fuel self spec :
  (forall arg, In arg (rec_args spec) -> self arg <> OutOfFuel) ->
  getDataUrls_body self spec <> OutOfFuel.
Proof.
  intros Hself. destruct (readable_cases spec) as [->|[->|Hr]];
    try (unfold getDataUrls_body; simpl; congruence).
  assert (spec <> Undefined) as Hspec by apply Hr.
  rewrite body_blocks by assumption.
  pose proof (data_block_fuel (prop spec K_data) []) as Hd.
  destruct (data_block (prop spec K_data) []) as [urls| |]; run_bind; try congruence.
  pose proof (forEach_fuel (layers_of spec)
    (fun dataUrls layer => match self layer with
                           | Ok a => Ok (dataUrls ++ a)
                           | Throw e => Throw e
                           | OutOfFuel => OutOfFuel
                           end) urls) as Hl.
  destruct (forEach (layers_of spec) _ urls) as [urls'| |]; try congruence.
  - unfold transform_block.
    destruct (negb (is_undefined (prop spec K_transform))); [|congruence].
    destruct (prop spec K_transform) as [| | | | |ts| |] eqn:Hts; try congruence.
    apply forEach_fuel. intros s t Ht. run_bind.
    destruct (get t K_from) as [from| |] eqn:Hfrom; try congruence.
    + apply get_Ok in Hfrom as (_ & _ & ->).
      pose proof (Hself _ (rec_args_from spec ts t Hr Hts Ht)).
      destruct (self (prop t K_from)); congruence.
    + destruct t; simpl in Hfrom; congruence.
  - apply Hl. intros s x Hx.
    pose proof (Hself _ (rec_args_layers spec x Hr Hx)).
    destruct (self x); congruence.
Qed.

(** Fuel beyond the size of the argument is never used up, and the result
    does not depend on it. *)
Lemma fuel_enough fuel spec :
  size spec < fuel -> getDataUrls_fuel fuel spec <> OutOfFuel.
Proof.
  revert spec. induction fuel as [|fuel IH]; intros spec Hlt; [lia|].
  simpl. apply body_fuel. intros arg Harg. apply IH.
  apply rec_args_smaller in Harg. lia.
Qed.

Lemma fuel_stable fuel fuel' spec :
  size spec < fuel -> size spec < fuel' ->
  getDataUrls_fuel fuel spec = getDataUrls_fuel fuel' spec.
Proof.
  revert fuel' spec. induction fuel as [|fuel IH]; intros fuel' spec Hlt Hlt'; [lia|].
  destruct fuel' as [|fuel']; [lia|]. simpl.
  apply body_ext. intros arg Harg. apply rec_args_smaller in Harg.
  apply IH; lia.
Qed.

(** The recursive equation of [getDataUrls]. *)
Lemma getDataUrls_unfold spec :
  getDataUrls spec = getDataUrls_body getDataUrls spec.
Proof.
  unfold getDataUrls at 1. simpl. apply body_ext.
  intros arg Harg. apply rec_args_smaller in Harg.
  unfold getDataUrls. apply fuel_stable; lia.
Qed.

(** The [data] block returns exactly on safe data, with [data_urls]. *)
Lemma forEach_push kept acc :
  (forall d, In d kept -> readable d) ->
  forEach kept (fun dataUrls d => let* u := get d K_url in Ok (dataUrls ++ [u])) acc
  = Ok (acc ++ map (fun d => prop d K_url) kept).
Proof.
  revert acc. induction kept as [|d rest IH]; intros acc Hr; simpl.
  - rewrite app_nil_r. reflexivity.
  - rewrite (readable_get d) by (apply Hr; left; reflexivity). run_bind.
    rewrite IH by (intros d' Hd'; apply Hr; right; exact Hd').
    rewrite <- app_assoc. reflexivity.
Qed.

Lemma data_block_safe data acc :
  data_safe data -> data_block data acc = Ok (acc ++ data_urls data).
Proof.
  intros Hsafe. unfold data_block, data_urls.
  destruct data; simpl in *; try contradiction;
    try (rewrite app_nil_r; reflexivity).
  - (* an array *)
    rewrite (filterM_Ok _ (fun d => negb (is_undefined (prop d K_url)))).
    2:{ intros d Hd. rewrite (readable_get d) by auto. reflexivity. }
    run_bind. apply forEach_push.
    intros d Hd. apply filter_In in Hd as [Hd _]. auto.
  - (* an object *) run_bind.
    destruct (is_undefined (own props "url")); simpl;
      [rewrite app_nil_r|]; reflexivity.
Qed.

Lemma data_block_Ok data acc out :
  data_block data acc = Ok out ->
  data_safe data /\ out = acc ++ data_urls data.
Proof.
  intros H. assert (data_safe data) as Hsafe.
  { unfold data_block in H. destruct data; simpl in *; try exact I; try discriminate.
    run_bind.
    destruct (filterM _ items) as [kept| |] eqn:Hf; try discriminate.
    apply filterM_Ok_inv in Hf as [Hall _].
    intros d Hd. destruct (Hall d Hd) as [b Hb].
    destruct d; simpl in Hb; try discriminate; split; congruence. }
  split; [exact Hsafe|].
  rewrite (data_block_safe data acc Hsafe) in H. congruence.
Qed.

(** The loop over [transform]. *)
Lemma from_call_Ok (self : value -> res (list value)) t r :
  (let* from := get t K_from in self from) = Ok r <->
  readable t /\ self (prop t K_from) = Ok r.
Proof.
  unfold readable. destruct t; run_bind; split;
    try (intros [[? ?] ?]); try congruence; try discriminate;
    intros H; repeat split; try congruence.
Qed.

Lemma transform_loop_assoc (self : value -> res (list value)) ts acc :
  forEach ts
    (fun dataUrls transformData =>
       let* from := get transformData K_from in
       let* more := self from in
       Ok (dataUrls ++ more)) acc
  = forEach ts
      (fun dataUrls t =>
         let* more := (let* from := get t K_from in self from) in
         Ok (dataUrls ++ more)) acc.
Proof.
  apply forEach_ext. intros s t _. run_bind. destruct (get t K_from); reflexivity.
Qed.

Lemma transform_block_results self transforms acc rs :
  transform_results self transforms rs ->
  transform_block self transforms acc = Ok (acc ++ concat rs).
Proof.
  intros [[-> ->]|(ts & -> & Hall)]; unfold transform_block; simpl.
  - rewrite app_nil_r. reflexivity.
  - rewrite transform_loop_assoc. apply forEach_append_Ok.
    eapply Forall2_impl; [exact Hall|].
    intros t r Htr. apply from_call_Ok. exact Htr.
Qed.

Lemma transform_block_Ok self transforms acc out :
  transform_block self transforms acc = Ok out ->
  exists rs, transform_results self transforms rs /\ out = acc ++ concat rs.
Proof.
  unfold transform_block. intros H.
  destruct transforms; simpl in H; try discriminate.
  - inversion H; subst. exists []. split; [left; auto|].
    simpl. rewrite app_nil_r. reflexivity.
  - rewrite transform_loop_assoc in H.
    apply forEach_append_inv in H as (rs & Hrs & ->).
    exists rs. split; [|reflexivity]. right. exists items. split; [reflexivity|].
    eapply Forall2_impl; [exact Hrs|].
    intros t r Htr. apply from_call_Ok. exact Htr.
Qed.

(** When and with what [getDataUrls] returns. *)
Lemma getDataUrls_undefined : getDataUrls Undefined = Ok [].
Proof. reflexivity. Qed.

Lemma getDataUrls_returns spec rs ts :
  readable spec ->
  data_safe (prop spec K_data) ->
  Forall2 (fun layer r => getDataUrls layer = Ok r) (layers_of spec) rs ->
  transform_results getDataUrls (prop spec K_transform) ts ->
  getDataUrls spec = Ok (data_urls (prop spec K_data) ++ concat rs ++ concat ts).
Proof.
  intros Hr Hd Hl Ht. rewrite getDataUrls_unfold, body_blocks by assumption.
  rewrite (data_block_safe _ [] Hd). run_bind.
  pose proof (forEach_append_Ok getDataUrls _ _ (data_urls (prop spec K_data)) Hl) as E.
  run_bind. rewrite E.
  rewrite (transform_block_results _ _ _ ts Ht), app_assoc. reflexivity.
Qed.

Lemma getDataUrls_Ok spec us :
  getDataUrls spec = Ok us ->
  (spec = Undefined /\ us = []) \/
  (readable spec /\ data_safe (prop spec K_data) /\
   exists rs ts,
     Forall2 (fun layer r => getDataUrls layer = Ok r) (layers_of spec) rs /\
     transform_results getDataUrls (prop spec K_transform) ts /\
     us = data_urls (prop spec K_data) ++ concat rs ++ concat ts).
Proof.
  intros H. destruct (readable_cases spec) as [->|[->|Hr]].
  - left. split; [reflexivity|]. rewrite getDataUrls_undefined in H. congruence.
  - discriminate H.
  - right. split; [exact Hr|].
    rewrite getDataUrls_unfold, body_blocks in H by assumption.
    destruct (data_block (prop spec K_data) []) as [urls| |] eqn:Hd;
      run_bind; try discriminate.
    apply data_block_Ok in Hd as [Hsafe ->]. split; [exact Hsafe|].
    destruct (forEach (layers_of spec) _ _) as [urls| |] eqn:Hl; try discriminate.
    pose proof (forEach_append_inv getDataUrls (layers_of spec)
                  (data_urls (prop spec K_data)) urls) as Hinv.
    run_bind. destruct (Hinv Hl) as (rs & Hrs & ->).
    apply transform_block_Ok in H as (ts & Hts & ->).
    exists rs, ts. rewrite <- app_assoc. auto.
Qed.

Lemma Forall2_of_results {A B} (F : A -> res B) xs :
  (forall x, In x xs -> exists r, F x = Ok r) ->
  exists rs, Forall2 (fun x r => F x = Ok r) xs rs.
Proof.
  induction xs as [|x rest IH]; intros H.
  - exists []. constructor.
  - destruct (H x (or_introl eq_refl)) as [r Hr].
    destruct IH as [rs Hrs]; [intros y Hy; apply H; right; exact Hy|].
    exists (r :: rs). constructor; assumption.
Qed.

Lemma Forall2_In_l {A B} (R : A -> B -> Prop) xs ys x :
  Forall2 R xs ys -> In x xs -> exists y, In y ys /\ R x y.
Proof.
  induction 1 as [|a b xs ys Hab _ IH]; simpl; [tauto|].
  intros [<-|Hin]; [eauto|]. destruct (IH Hin) as (y & Hy & Hxy). eauto.
Qed.

Lemma Forall2_In_r {A B} (R : A -> B -> Prop) xs ys y :
  Forall2 R xs ys -> In y ys -> exists x, In x xs /\ R x y.
Proof.
  induction 1 as [|a b xs ys Hab _ IH]; simpl; [tauto|].
  intros [<-|Hin]; [eauto|]. destruct (IH Hin) as (x & Hx & Hxy). eauto.
Qed.

Lemma transform_results_safe self transforms :
  transform_safe transforms ->
  (forall ts t, transforms = Arr ts -> In t ts -> exists r, self (prop t K_from) = Ok r) ->
  exists rs, transform_results self transforms rs.
Proof.
  intros Hsafe Hall. destruct transforms; simpl in Hsafe; try contradiction.
  - exists []. left. auto.
  - destruct (Forall2_of_results (fun t => self (prop t K_from)) items) as [rs Hrs].
    { intros t Ht. eapply Hall; [reflexivity|exact Ht]. }
    exists rs. right. exists items. split; [reflexivity|].
    clear Hall. induction Hrs as [|t r ts rs Htr _ IH]; constructor.
    + split; [apply Hsafe; left; reflexivity|exact Htr].
    + apply IH. intros t' Ht'. apply Hsafe. right. exact Ht'.
Qed.

(** [getDataUrls] returns on every safe spec, and on no other value. *)
Lemma safe_returns spec : safe spec -> exists us, getDataUrls spec = Ok us.
Proof.
  induction 1 as [|spec Hr Hd _ IHl Ht _ IHt].
  - exists []. reflexivity.
  - destruct (Forall2_of_results getDataUrls (layers_of spec)) as [rs Hrs].
    { intros item Hitem. apply layers_of_items in Hitem as (k & Hk & Hin). eauto. }
    destruct (transform_results_safe getDataUrls (prop spec K_transform) Ht IHt)
      as [ts Hts].
    eexists. apply (getDataUrls_returns spec rs ts); assumption.
Qed.

Lemma returns_safe spec us : getDataUrls spec = Ok us -> safe spec.
Proof.
  remember (size spec) as n eqn:Hn. revert spec us Hn.
  induction n as [n IH] using lt_wf_ind. intros spec us -> H.
  apply getDataUrls_Ok in H as [[-> _]|(Hr & Hd & rs & ts & Hrs & Hts & _)].
  { constructor. }
  assert (spec <> Undefined) as Hspec by apply Hr.
  apply safe_spec; try assumption.
  - intros k item Hk Hitem.
    assert (In item (layers_of spec)) as Hin by (apply layers_of_items; eauto).
    destruct (Forall2_In_l _ _ _ _ Hrs Hin) as (r & _ & Hitemr).
    eapply (IH (size item)); [|reflexivity|exact Hitemr].
    apply rec_args_smaller, rec_args_layers; assumption.
  - destruct Hts as [[-> _]|(items & -> & Hall)]; simpl; [exact I|].
    intros t Ht. destruct (Forall2_In_l _ _ _ _ Hall Ht) as (r & _ & Hrt & _).
    exact Hrt.
  - intros items t Hitems Ht.
    destruct Hts as [[E _]|(items' & E & Hall)]; [congruence|].
    assert (items' = items) as -> by congruence.
    destruct (Forall2_In_l _ _ _ _ Hall Ht) as (r & _ & _ & Hfrom).
    eapply (IH (size (prop t K_from))); [|reflexivity|exact Hfrom].
    eapply rec_args_smaller, rec_args_from; eassumption.
Qed.

(** No url is embedded in [undefined]. *)
Lemma embedded_defined spec u : embedded spec u -> spec <> Undefined.
Proof.
  induction 1 as [spec u _ Hu Hne|spec ds d u Hds _ _ _
                 |spec k item u Hk Hitem _ IH|spec ts t u Hts _ _ _];
    intros ->; simpl in *; try congruence.
  destruct k; simpl in Hitem; destruct Hitem as [<-|[]]; congruence.
Qed.

(** The urls of the [data] block are those of the two shapes of [data]. *)
Lemma data_urls_spec data u :
  In u (data_urls data) <->
  (isArray data = false /\ prop data K_url = u /\ u <> Undefined) \/
  (exists ds d, data = Arr ds /\ In d ds /\ prop d K_url = u /\ u <> Undefined).
Proof.
  assert (forall v, is_undefined v = false <-> v <> Undefined) as Hdef
    by apply is_undefined_false.
  destruct (isArray data) eqn:Harr.
  - destruct data as [| | | | |ds| |]; try discriminate Harr.
    unfold data_urls. rewrite in_map_iff. split.
    + intros (d & <- & Hd). apply filter_In in Hd as [Hd Hu].
      right. exists ds, d. repeat split; auto.
      apply Hdef. destruct (is_undefined (prop d K_url)); auto.
    + intros [[E _]|(ds' & d & E & Hd & <- & Hne)]; [discriminate|].
      inversion E; subst ds'. exists d. split; [reflexivity|].
      apply filter_In. split; [exact Hd|].
      apply Hdef in Hne. rewrite Hne. reflexivity.
  - assert (data_urls data =
            if is_undefined (prop data K_url) then [] else [prop data K_url]) as ->
      by (destruct data; try discriminate Harr; reflexivity).
    destruct (is_undefined (prop data K_url)) eqn:Eu; split.
    + intros [].
    + intros [(_ & Hu & Hne)|(ds & d & E & _)].
      * apply is_undefined_true in Eu. congruence.
      * subst data. discriminate.
    + intros [<-|[]]. left. repeat split. apply Hdef. exact Eu.
    + intros [(_ & Hu & _)|(ds & d & E & _)].
      * left. exact Hu.
      * subst data. discriminate.
Qed.

(** The urls [getDataUrls] returns are the embedded ones. *)
Lemma getDataUrls_collects spec us :
  getDataUrls spec = Ok us -> forall u, In u us <-> embedded spec u.
Proof.
  remember (size spec) as n eqn:Hn. revert spec us Hn.
  induction n as [n IH] using lt_wf_ind. intros spec us -> H u.
  apply getDataUrls_Ok in H as [[-> ->]|(Hr & Hd & rs & ts & Hrs & Hts & ->)].
  { split; [intros []|]. intros He. apply embedded_defined in He. congruence. }
  assert (spec <> Undefined) as Hspec by apply Hr.
  assert (forall item r, In item (layers_of spec) -> getDataUrls item = Ok r ->
            (In u r <-> embedded item u)) as IHl.
  { intros item r Hin Hitem. eapply (IH (size item)); [|reflexivity|exact Hitem].
    apply rec_args_smaller, rec_args_layers; assumption. }
  assert (forall items t r, prop spec K_transform = Arr items -> In t items ->
            getDataUrls (prop t K_from) = Ok r ->
            (In u r <-> embedded (prop t K_from) u)) as IHt.
  { intros items t r Hitems Ht Hfrom.
    eapply (IH (size (prop t K_from))); [|reflexivity|exact Hfrom].
    eapply rec_args_smaller, rec_args_from; eassumption. }
  clear IH. rewrite !in_app_iff, !in_concat. split.
  - intros [Hdata|[(r & Hr' & Hur)|(r & Hr' & Hur)]].
    + apply data_urls_spec in Hdata
        as [(Harr & Hu & Hne)|(ds & d & Hds & Hd' & Hu & Hne)].
      * apply emb_data_object; assumption.
      * eapply emb_data_array; eassumption.
    + destruct (Forall2_In_r _ _ _ _ Hrs Hr') as (item & Hitem & Hres).
      pose proof (proj1 (IHl item r Hitem Hres) Hur) as He.
      apply layers_of_items in Hitem as (k & Hk & Hin).
      eapply emb_layer; eassumption.
    + destruct Hts as [[_ ->]|(items & Hitems & Hall)]; [destruct Hr'|].
      destruct (Forall2_In_r _ _ _ _ Hall Hr') as (t & Ht & _ & Hres).
      eapply emb_transform; [exact Hitems|exact Ht|].
      apply (IHt items t r); assumption.
  - intros He. inversion He as [spec' u' Harr Hu Hne|spec' ds d u' Hds Hd' Hu Hne
                               |spec' k item u' Hk Hitem Hemb
                               |spec' items t u' Hitems Ht Hemb]; subst.
    + left. apply data_urls_spec. left. auto.
    + left. apply data_urls_spec. right. exists ds, d. auto.
    + right. left.
      assert (In item (layers_of spec)) as Hin by (apply layers_of_items; eauto).
      destruct (Forall2_In_l _ _ _ _ Hrs Hin) as (r & Hr' & Hres).
      exists r. split; [exact Hr'|]. apply (IHl item r); assumption.
    + right. right.
      destruct Hts as [[E _]|(items' & E & Hall)]; [congruence|].
      assert (items' = items) as -> by congruence.
      destruct (Forall2_In_l _ _ _ _ Hall Ht) as (r & Hr' & _ & Hres).
      exists r. split; [exact Hr'|]. apply (IHt items t r); assumption.
Qed.

(** *** Loading the data files *)

Lemma io_bind_Ok {E A B} (m : io E A) (k : A -> io E B) t b :
  (let* x := m in k x) = Run t (Ok b) ->
  exists t1 a t2, m = Run t1 (Ok a) /\ k a = Run t2 (Ok b) /\ t = t1 ++ t2.
Proof.
  unfold mbind, io_bind. destruct m as [t1 [a|e|]]; try discriminate.
  destruct (k a) as [t2 r] eqn:Hk. intros H. inversion H; subst.
  exists t1, a, t2. auto.
Qed.

Lemma io_bind_trace {E A B} (m : io E A) (k : A -> io E B) :
  exists t2, trace_of (let* x := m in k x) = trace_of m ++ t2 /\
    (t2 = [] \/ exists a, outcome m = Ok a /\ t2 = trace_of (k a)).
Proof.
  unfold mbind, io_bind. destruct m as [t1 [a|e|]]; simpl.
  - destruct (k a) as [t2 r] eqn:Hk. exists t2. split; [reflexivity|].
    right. exists a. rewrite Hk. auto.
  - exists []. rewrite app_nil_r. auto.
  - exists []. rewrite app_nil_r. auto.
Qed.

Lemma is_local_Ok url b :
  is_local url = Ok b <-> exists s, url = Str s /\ b = negb (String.prefix "http" s).
Proof.
  unfold is_local. destruct url; run_bind; split;
    try discriminate; try (intros (s' & E & _); discriminate E).
  - intros H. inversion H. eauto.
  - intros (s' & E & ->). inversion E. reflexivity.
Qed.

Section HostFacts.

Variable fsPath : Uri -> string.
Variable path_join : string -> string -> string.
Variable path_dirname : string -> string.
Variable fs : string -> option node.
Variable this : DataPreview.

Local Abbreviation path_of := (resolve fsPath path_join path_dirname this).
Local Abbreviation step := (getData_step fsPath path_join path_dirname fs this).
Local Abbreviation load := (getData fsPath path_join path_dirname fs this).

(** One round of the loop of [getData], by what is on disk. *)
Lemma step_missing dataFiles s :
  fs (path_of s) = None ->
  step dataFiles (Str s)
  = Run [ExistsSync s (path_of s); LogMessage Error "getFileData():";
         LogMessage Debug "getData(): localDataUrl:"] (Ok dataFiles).
Proof.
  intros Hfs. unfold getData_step, getFileData, existsSync. rewrite Hfs. reflexivity.
Qed.

Lemma step_file dataFiles s text :
  fs (path_of s) = Some (File text) ->
  step dataFiles (Str s)
  = Run [ExistsSync s (path_of s); ReadFileSync s (path_of s);
         LogMessage Debug "getData(): localDataUrl:"]
      (Ok (if String.eqb text "" then dataFiles else obj_set dataFiles s text)).
Proof.
  intros Hfs. unfold getData_step, getFileData, existsSync, readFileSync.
  rewrite Hfs. simpl. destruct (String.eqb text ""); reflexivity.
Qed.

Lemma step_directory dataFiles s :
  fs (path_of s) = Some Directory ->
  exists e, step dataFiles (Str s)
  = Run [ExistsSync s (path_of s); ReadFileSync s (path_of s)] (Throw e).
Proof.
  intros Hfs. unfold getData_step, getFileData, existsSync, readFileSync.
  rewrite Hfs. eexists. reflexivity.
Qed.

(** What one round can be. *)
Lemma step_cases dataFiles url :
  exists t r, step dataFiles url = Run t r /\
    (forall f, In f (accessed t) -> url = Str f) /\
    (forall m, r = Ok m ->
       exists s, url = Str s /\
         ((fs (path_of s) = None /\ m = dataFiles) \/
          (exists text, fs (path_of s) = Some (File text) /\
             m = if String.eqb text "" then dataFiles else obj_set dataFiles s text))).
Proof.
  destruct url as [| | | |s| | |];
    try (eexists [], _; split; [reflexivity|];
         split; [intros f []|intros m Hm; discriminate Hm]).
  destruct (fs (path_of s)) as [[text|]|] eqn:Hfs.
  - rewrite (step_file _ _ _ Hfs). eexists _, _. split; [reflexivity|]. split.
    + simpl. intros f [<-|[<-|[]]]; reflexivity.
    + intros m Hm. inversion Hm; subst. exists s. split; [reflexivity|]. right. eauto.
  - destruct (step_directory dataFiles _ Hfs) as [e ->].
    eexists _, _. split; [reflexivity|]. split.
    + simpl. intros f [<-|[<-|[]]]; reflexivity.
    + intros m Hm. discriminate Hm.
  - rewrite (step_missing _ _ Hfs). eexists _, _. split; [reflexivity|]. split.
    + simpl. intros f [<-|[]]; reflexivity.
    + intros m Hm. inversion Hm; subst. exists s. split; [reflexivity|]. left. auto.
Qed.

Lemma accessed_app t1 t2 : accessed (t1 ++ t2) = accessed t1 ++ accessed t2.
Proof. unfold accessed. apply flat_map_app. Qed.

Lemma obj_set_lookup (m : gmap string string) k v s :
  obj_set m k v !! s <> None -> s = k \/ m !! s <> None.
Proof.
  unfold obj_set. destruct (String.eqb k "__proto__"); [auto|].
  destruct (decide (k = s)) as [->|Hne]; [auto|].
  rewrite lookup_insert_ne by exact Hne. auto.
Qed.

Lemma obj_set_same (m : gmap string string) k v :
  k <> "__proto__" -> obj_set m k v !! k = Some v.
Proof.
  intros Hk. unfold obj_set. apply String.eqb_neq in Hk. rewrite Hk.
  apply lookup_insert_eq.
Qed.

Lemma obj_set_other (m : gmap string string) k v s :
  s <> k -> obj_set m k v !! s = m !! s.
Proof.
  intros Hs. unfold obj_set. destruct (String.eqb k "__proto__"); [reflexivity|].
  apply lookup_insert_ne. congruence.
Qed.

(** The loop only touches the files of the urls it is given. *)
Lemma loop_accessed kept dataFiles f :
  In f (accessed (trace_of (forEach_io kept step dataFiles))) -> In (Str f) kept.
Proof.
  revert dataFiles. induction kept as [|url rest IH]; intros dataFiles; simpl.
  - intros [].
  - destruct (io_bind_trace (step dataFiles url) (forEach_io rest step))
      as (t2 & -> & Ht2).
    rewrite accessed_app, in_app_iff.
    destruct (step_cases dataFiles url) as (t & r & Hstep & Hacc & _).
    rewrite Hstep. simpl. intros [Hf|Hf].
    + left. apply Hacc. exact Hf.
    + right. destruct Ht2 as [->|(a & _ & ->)]; [destruct Hf|].
      apply (IH a). exact Hf.
Qed.

(** Every entry of the map the loop returns was there before or is the
    file of one of its urls. *)
Lemma loop_entries kept dataFiles t m s :
  forEach_io kept step dataFiles = Run t (Ok m) ->
  m !! s <> None ->
  (In (Str s) kept /\ exists text, fs (path_of s) = Some (File text)) \/
  dataFiles !! s <> None.
Proof.
  revert dataFiles t. induction kept as [|url rest IH]; intros dataFiles t; simpl.
  - unfold mret, io_ret. intros H. inversion H; subst. auto.
  - intros H Hs. apply io_bind_Ok in H as (t1 & m1 & t2 & Hstep & Hrest & ->).
    destruct (step_cases dataFiles url) as (t & r & Hstep' & _ & Hok).
    rewrite Hstep in Hstep'. inversion Hstep'; subst t r.
    destruct (Hok m1 eq_refl) as (s0 & -> & Hcase).
    destruct (IH _ _ Hrest Hs) as [[Hin Hfile]|Hm1]; [left; split; [right|]; auto|].
    destruct Hcase as [[_ ->]|(text & Hfile & ->)]; [auto|].
    destruct (String.eqb text ""); [auto|].
    apply obj_set_lookup in Hm1 as [->|Hm1]; [|auto].
    left. split; [left; reflexivity|eauto].
Qed.

(** The loop returns when no url is a directory, and the map then has the
    content of every file that is not empty. *)
Lemma loop_returns kept dataFiles :
  (forall url, In url kept ->
     exists s, url = Str s /\ fs (path_of s) <> Some Directory) ->
  exists t m, forEach_io kept step dataFiles = Run t (Ok m) /\
    forall s text,
      fs (path_of s) = Some (File text) -> text <> "" -> s <> "__proto__" ->
      In (Str s) kept \/ dataFiles !! s = Some text ->
      m !! s = Some text.
Proof.
  revert dataFiles. induction kept as [|url rest IH]; intros dataFiles Hkept; simpl.
  - exists [], dataFiles. split; [reflexivity|]. intros s text _ _ _ [[]|H]. exact H.
  - destruct (Hkept url (or_introl eq_refl)) as (s0 & -> & Hdir).
    assert (exists t1 m1, step dataFiles (Str s0) = Run t1 (Ok m1) /\
              forall s text, fs (path_of s) = Some (File text) -> text <> "" ->
                s <> "__proto__" ->
                s = s0 \/ dataFiles !! s = Some text -> m1 !! s = Some text)
      as (t1 & m1 & Hstep & Hm1).
    { destruct (fs (path_of s0)) as [[text0|]|] eqn:Hfs0; [|congruence|].
      - rewrite (step_file _ _ _ Hfs0). eexists _, _. split; [reflexivity|].
        intros s text Hfs Htext Hproto Hs.
        destruct (decide (s = s0)) as [->|Hne].
        + assert (text0 = text) as -> by congruence.
          apply String.eqb_neq in Htext. rewrite Htext.
          apply obj_set_same. exact Hproto.
        + destruct Hs as [Hs|Hs]; [contradiction|].
          destruct (String.eqb text0 ""); [exact Hs|].
          rewrite obj_set_other by exact Hne. exact Hs.
      - rewrite (step_missing _ _ Hfs0). eexists _, _. split; [reflexivity|].
        intros s text Hfs Htext Hproto [->|Hs]; [congruence|exact Hs]. }
    destruct (IH m1) as (t2 & m & Hrest & Hm).
    { intros url Hurl. apply Hkept. right. exact Hurl. }
    exists (t1 ++ t2), m. split.
    + unfold mbind, io_bind. rewrite Hstep, Hrest. reflexivity.
    + intros s text Hfs Htext Hproto [[E|Hin]|Hs].
      * inversion E; subst s0. apply (Hm s text); auto.
      * apply (Hm s text); auto.
      * apply (Hm s text); auto.
Qed.

(** The local urls: the strings that do not start with [http]. *)
Lemma local_urls urls kept :
  filterM is_local urls = Ok kept ->
  (forall url, In url urls -> exists s, url = Str s) /\
  (forall url, In url kept <->
     In url urls /\ exists s, url = Str s /\ String.prefix "http" s = false).
Proof.
  intros H. apply filterM_Ok_inv in H as [Hall Hkept]. split.
  - intros url Hurl. destruct (Hall url Hurl) as [b Hb].
    apply is_local_Ok in Hb as (s & -> & _). eauto.
  - intros url. rewrite Hkept, is_local_Ok. split.
    + intros [Hin (s & -> & Hb)]. split; [exact Hin|]. exists s. split; [reflexivity|].
      destruct (String.prefix "http" s); [discriminate|reflexivity].
    + intros [Hin (s & -> & Hb)]. split; [exact Hin|]. exists s. rewrite Hb. auto.
Qed.

Lemma local_urls_returns urls :
  (forall url, In url urls -> exists s, url = Str s) ->
  exists kept, filterM is_local urls = Ok kept.
Proof.
  intros Hall. eexists.
  apply (filterM_Ok _ (fun url => match url with
                                  | Str s => negb (String.prefix "http" s)
                                  | _ => false
                                  end)).
  intros url Hurl. destruct (Hall url Hurl) as [s ->]. reflexivity.
Qed.

(** [getData], from its parts. *)
Lemma getData_parts spec :
  load spec =
    match allDataUrls spec with
    | Ok urls =>
        match filterM is_local urls with
        | Ok kept =>
            match forEach_io kept step empty with
            | Run t r => Run (LogMessage Debug "getData(): dataUrls:" :: t) r
            end
        | Throw e => Run [LogMessage Debug "getData(): dataUrls:"] (Throw e)
        | OutOfFuel => Run [LogMessage Debug "getData(): dataUrls:"] OutOfFuel
        end
    | Throw e => Run [] (Throw e)
    | OutOfFuel => Run [] OutOfFuel
    end.
Proof.
  unfold getData. destruct (allDataUrls spec) as [urls| |]; try reflexivity.
  unfold mbind, io_bind, lift, emit. simpl.
  destruct (filterM is_local urls) as [kept| |]; try reflexivity.
  destruct (forEach_io kept step empty) as [t r]. destruct r; reflexivity.
Qed.

Lemma getData_Ok spec t m :
  load spec = Run t (Ok m) ->
  exists urls kept t',
    allDataUrls spec = Ok urls /\ filterM is_local urls = Ok kept /\
    forEach_io kept step empty = Run t' (Ok m).
Proof.
  rewrite getData_parts.
  destruct (allDataUrls spec) as [urls| |]; try (intros H; discriminate H).
  destruct (filterM is_local urls) as [kept| |] eqn:Hkept;
    try (intros H; discriminate H).
  destruct (forEach_io kept step empty) as [t' r] eqn:Hloop.
  intros H. inversion H; subst. eauto 10.
Qed.

Lemma getData_accessed spec f :
  In f (accessed (trace_of (load spec))) ->
  String.prefix "http" f = false /\
  exists urls, allDataUrls spec = Ok urls /\ In (Str f) urls.
Proof.
  rewrite getData_parts.
  destruct (allDataUrls spec) as [urls| |]; try (intros []).
  destruct (filterM is_local urls) as [kept| |] eqn:Hkept; try (intros []).
  pose proof (loop_accessed kept empty f) as Hloop.
  destruct (forEach_io kept step empty) as [t r]. simpl in *.
  intros Hf. apply Hloop in Hf.
  apply (local_urls urls kept Hkept) in Hf as [Hin (s & E & Hlocal)].
  inversion E; subst s. eauto.
Qed.

End HostFacts.

End PreviewFacts.

(** *** The properties of the preview panel *)

Module PreviewProperties.
Import Js JsFacts Preview PreviewFacts Samples.

Example getDataUrls_layered :
  getDataUrls layered_spec = Ok [Str "a.csv"; Str "b.csv"; Str "c.csv"].
Proof. vm_compute. reflexivity. Qed.

Example getDataUrls_nested : getDataUrls nested_spec = Ok [].
Proof. vm_compute. reflexivity. Qed.

Example getDataUrls_null : exists e, getDataUrls Null = Throw e.
Proof. eexists. vm_compute. reflexivity. Qed.

Example getDataUrls_single_layer :
  getDataUrls (Obj [("layer", Obj [("data", Obj [("url", Str "z.csv")])])])
  = Ok [Str "z.csv"].
Proof. vm_compute. reflexivity. Qed.

Example getDataUrls_data_array :
  getDataUrls (Obj [("data", Arr [Obj [("name", Str "t"); ("url", Str "t.json")];
                                  Obj [("name", Str "u")]; Str "v"])])
  = Ok [Str "t.json"].
Proof. vm_compute. reflexivity. Qed.

Example getDataUrls_transform_object :
  getDataUrls (Obj [("data", Obj [("url", Str "a.csv")]); ("transform", Obj [])])
  = Throw (TypeError "transforms.forEach is not a function").
Proof. vm_compute. reflexivity. Qed.

Example getData_layered_trace :
  trace_of (getData posix_fsPath posix_join posix_dirname disk chart_preview layered_spec)
  = [LogMessage Debug "getData(): dataUrls:";
     ExistsSync "a.csv" "/work/a.csv"; ReadFileSync "a.csv" "/work/a.csv";
     LogMessage Debug "getData(): localDataUrl:";
     ExistsSync "b.csv" "/work/b.csv"; ReadFileSync "b.csv" "/work/b.csv";
     LogMessage Debug "getData(): localDataUrl:";
     ExistsSync "c.csv" "/work/c.csv"; LogMessage Error "getFileData():";
     LogMessage Debug "getData(): localDataUrl:"].
Proof. vm_compute. reflexivity. Qed.

Example getData_layered_map :
  outcome (getData posix_fsPath posix_join posix_dirname disk chart_preview layered_spec)
  = Ok (<["a.csv" := "x,y"]> empty).
Proof. vm_compute. reflexivity. Qed.

Example getData_proto_map :
  getData posix_fsPath posix_join posix_dirname disk chart_preview
    (Obj [("data", Obj [("url", Str "__proto__")])])
  = Run [LogMessage Debug "getData(): dataUrls:";
         ExistsSync "__proto__" "/work/__proto__";
         ReadFileSync "__proto__" "/work/__proto__";
         LogMessage Debug "getData(): localDataUrl:"] (Ok empty).
Proof. vm_compute. reflexivity. Qed.

Example getData_directory_throws :
  getData posix_fsPath posix_join posix_dirname disk chart_preview
    (Obj [("data", Obj [("url", Str "sub")])])
  = Run [LogMessage Debug "getData(): dataUrls:";
         ExistsSync "sub" "/work/sub"; ReadFileSync "sub" "/work/sub"]
      (Throw (MkError "Error" "EISDIR: illegal operation on a directory, read")).
Proof. vm_compute. reflexivity. Qed.

Example posix_resolve_a :
  resolve posix_fsPath posix_join posix_dirname chart_preview "a.csv" = "/work/a.csv".
Proof. vm_compute. reflexivity. Qed.

(** C1 (as amended). [getDataUrls] returns the empty list for [undefined].
    For every other value it returns exactly when the traversal is safe
    (it reads no property of [null], and [transform] is an array when
    present), and the list it then returns holds exactly the embedded
    data urls: the defined [url] of a [data] that is no array, the defined
    [url]s of the items of a [data] array, the urls collected recursively
    from every item of [layer], [concat], [hconcat] and [vconcat], and
    those collected recursively from [t['from']] for every item [t] of
    [transform]. *)
Theorem getDataUrls_extracts :
  getDataUrls Undefined = Ok [] /\
  forall spec,
    (safe spec <-> exists us, getDataUrls spec = Ok us) /\
    (forall us, getDataUrls spec = Ok us ->
       (forall u, In u us <-> embedded spec u) /\
       (spec <> Undefined ->
        exists rs ts,
          Forall2 (fun layer r => getDataUrls layer = Ok r) (layers_of spec) rs /\
          transform_results getDataUrls (prop spec K_transform) ts /\
          us = data_urls (prop spec K_data) ++ concat rs ++ concat ts)).
Proof.
  split; [reflexivity|]. intros spec. split.
  - split; [apply safe_returns|]. intros [us Hus]. exact (returns_safe spec us Hus).
  - intros us Hus. split; [exact (getDataUrls_collects spec us Hus)|].
    intros Hspec.
    destruct (getDataUrls_Ok spec us Hus) as [[-> _]|(_ & _ & rs & ts & H)];
      [congruence|eauto].
Qed.

(** On the layered chart the three urls are returned, in the order data,
    layers, transforms. *)
Lemma getDataUrls_extracts_layered :
  safe layered_spec /\
  (In (Str "c.csv") [Str "a.csv"; Str "b.csv"; Str "c.csv"] <->
   embedded layered_spec (Str "c.csv")).
Proof.
  destruct getDataUrls_extracts as [_ H].
  destruct (H layered_spec) as [Hsafe Hurls]. split.
  - apply Hsafe. eexists. vm_compute. reflexivity.
  - apply (Hurls [Str "a.csv"; Str "b.csv"; Str "c.csv"]). vm_compute. reflexivity.
Defined.

(** C1, as stated, fails on a layer whose [data] is [null]: the [data] of
    the spec is an object with a defined url, and no url is collected,
    because reading [url] of [null] throws. *)
Lemma getDataUrls_null_data_throws :
  embedded null_data_spec (Str "a.csv") /\
  getDataUrls null_data_spec = Throw (TypeError "Cannot read property 'url' of null") /\
  ~ (exists us, getDataUrls null_data_spec = Ok us /\ In (Str "a.csv") us).
Proof.
  split; [|split].
  - apply emb_data_object; [reflexivity|reflexivity|discriminate].
  - vm_compute. reflexivity.
  - intros (us & Hus & _). vm_compute in Hus. discriminate Hus.
Qed.

(** C6. [getDataUrls] terminates on every value: each recursive call is
    on a strictly smaller value (an item of [layer], [concat], [hconcat] or
    [vconcat], or the [from] of an item of [transform]), the body reads
    the recursive call on these arguments only, and with any fuel beyond
    the size of the spec the traversal ends, returning or throwing, with
    the same result. *)
Theorem getDataUrls_terminates :
  forall spec,
    (forall arg, In arg (rec_args spec) -> size arg < size spec) /\
    (forall self self',
       (forall arg, In arg (rec_args spec) -> self arg = self' arg) ->
       getDataUrls_body self spec = getDataUrls_body self' spec) /\
    (forall fuel, size spec < fuel ->
       getDataUrls_fuel fuel spec = getDataUrls spec) /\
    ((exists us, getDataUrls spec = Ok us) \/ (exists e, getDataUrls spec = Throw e)).
Proof.
  intros spec. split; [|split; [|split]].
  - apply rec_args_smaller.
  - intros self self'. apply body_ext.
  - intros fuel Hfuel. unfold getDataUrls. apply fuel_stable; lia.
  - pose proof (fuel_enough (S (size spec)) spec (Nat.lt_succ_diag_r _)) as Hfuel.
    unfold getDataUrls. destruct (getDataUrls_fuel (S (size spec)) spec); eauto.
    congruence.
Qed.

(** On the layered chart: six recursive calls (two layers, [undefined]
    for each of the three absent keywords, one transform), each on a
    smaller value, and fuel 100 is enough. *)
Lemma getDataUrls_terminates_layered :
  length (rec_args layered_spec) = 6 /\
  (forall arg, In arg (rec_args layered_spec) -> size arg < size layered_spec) /\
  getDataUrls_fuel 100 layered_spec = getDataUrls layered_spec.
Proof.
  destruct (getDataUrls_terminates layered_spec) as (Hsmaller & _ & Hfuel & _).
  split; [reflexivity|]. split; [exact Hsmaller|].
  apply Hfuel. vm_compute. lia.
Defined.

(** The urls [getData] loads from are those embedded in the spec and in
    its [spec] property. *)
Lemma allDataUrls_Ok spec urls :
  allDataUrls spec = Ok urls ->
  readable spec /\
  exists us nested,
    getDataUrls spec = Ok us /\ getDataUrls (prop spec K_spec) = Ok nested /\
    urls = us ++ nested.
Proof.
  unfold allDataUrls. intros H.
  destruct (getDataUrls spec) as [us| |] eqn:Hus; run_bind; try discriminate.
  destruct (get spec K_spec) as [inner| |] eqn:Hget; try discriminate.
  apply get_Ok in Hget as (Hnull & Hundef & ->).
  destruct (getDataUrls (prop spec K_spec)) as [nested| |] eqn:Hnested;
    try discriminate.
  inversion H; subst. split; [split; assumption|]. eauto.
Qed.

Lemma allDataUrls_embedded spec urls u :
  allDataUrls spec = Ok urls ->
  (In u urls <-> embedded spec u \/ embedded (prop spec K_spec) u).
Proof.
  intros H. apply allDataUrls_Ok in H as (_ & us & nested & Hus & Hnested & ->).
  rewrite in_app_iff, (getDataUrls_collects _ _ Hus u),
    (getDataUrls_collects _ _ Hnested u). reflexivity.
Qed.

Section Host.

Variable fsPath : Uri -> string.
Variable Uri_file : string -> Uri.
Variable Uri_parse : string -> Uri.
Variable Uri_toString : Uri -> bool -> string.
Variable path_join : string -> string -> string.
Variable path_dirname : string -> string.
Variable path_basename : string -> string.
Variable replace_scripts : string -> string -> string.
Variable getWorkspaceFolder : Uri -> option WorkspaceFolder.
Variable createWebviewPanel :
  string -> string -> option ViewColumn -> WebviewOptions -> WebviewPanel.
Variable openTextDocument : Uri -> option string.
Variable JSON_parse : string -> res value.
Variable fs : string -> option node.

Local Abbreviation path_of := (resolve fsPath path_join path_dirname).
Local Abbreviation load := (getData fsPath path_join path_dirname fs).

(** C2 (as amended). When the data urls of the spec and of its [spec]
    property are collected without a throw, are all strings, and no local
    one names a directory, [getData] returns a map that holds, for every
    local url (not starting with [http], and other than [__proto__])
    embedded in the spec or in [spec['spec']] whose file exists and is
    not empty, the text of that file. Only the [spec] property of the root
    is followed. *)
Theorem getData_loads this spec urls :
  allDataUrls spec = Ok urls ->
  (forall url, In url urls -> exists s, url = Str s) ->
  (forall s, In (Str s) urls -> String.prefix "http" s = false ->
     fs (path_of this s) <> Some Directory) ->
  exists t m,
    load this spec = Run t (Ok m) /\
    (forall u, In u urls <-> embedded spec u \/ embedded (prop spec K_spec) u) /\
    forall s text,
      In (Str s) urls -> String.prefix "http" s = false ->
      fs (path_of this s) = Some (File text) -> text <> "" -> s <> "__proto__" ->
      m !! s = Some text.
Proof.
  intros Hurls Hstr Hdir.
  destruct (local_urls_returns urls Hstr) as [kept Hkept].
  pose proof (local_urls urls kept Hkept) as [_ Hlocal].
  destruct (loop_returns fsPath path_join path_dirname fs this kept empty)
    as (t & m & Hloop & Hm).
  { intros url Hurl. apply Hlocal in Hurl as [Hin (s & -> & Hhttp)].
    exists s. split; [reflexivity|]. apply Hdir; assumption. }
  exists (LogMessage Debug "getData(): dataUrls:" :: t), m. split; [|split].
  - rewrite getData_parts, Hurls, Hkept, Hloop. reflexivity.
  - intros u. apply allDataUrls_embedded. exact Hurls.
  - intros s text Hin Hhttp Hfile Htext Hproto.
    apply (Hm s text Hfile Htext Hproto). left. apply Hlocal. eauto.
Qed.

(** C10. A url that starts with [http] is never looked up or read on
    disk; for a local url whose file does not exist [getFileData] returns
    [null] without a throw and the round of the loop leaves the map as it
    was; and the map [getData] returns has no entry for a url that starts
    with [http] or whose file does not exist. *)
Theorem getData_omits this spec :
  (forall s, String.prefix "http" s = true ->
     ~ In s (accessed (trace_of (load this spec)))) /\
  (forall dataFiles s, fs (path_of this s) = None ->
     getFileData fsPath path_join path_dirname fs this (Str s)
     = Run [ExistsSync s (path_of this s); LogMessage Error "getFileData():"] (Ok None) /\
     getData_step fsPath path_join path_dirname fs this dataFiles (Str s)
     = Run [ExistsSync s (path_of this s); LogMessage Error "getFileData():";
            LogMessage Debug "getData(): localDataUrl:"] (Ok dataFiles)) /\
  (forall t m, load this spec = Run t (Ok m) ->
     forall s, String.prefix "http" s = true \/ fs (path_of this s) = None ->
       m !! s = None).
Proof.
  split; [|split].
  - intros s Hhttp Hin. apply getData_accessed in Hin as [Hlocal _]. congruence.
  - intros dataFiles s Hfs. split; [|apply step_missing; exact Hfs].
    unfold getFileData, existsSync. rewrite Hfs. reflexivity.
  - intros t m Hload s Hs.
    apply getData_Ok in Hload as (urls & kept & t' & _ & Hkept & Hloop).
    destruct (m !! s) as [text|] eqn:Hm; [exfalso|reflexivity].
    destruct (loop_entries fsPath path_join path_dirname fs this kept empty t' m s Hloop)
      as [[Hin [text' Hfile]]|Hempty].
    + congruence.
    + apply (local_urls urls kept Hkept) in Hin as [_ (s' & E & Hlocal)].
      inversion E; subst s'. destruct Hs; congruence.
    + apply Hempty. apply lookup_empty.
Qed.

(** C5. When the text of the previewed document is not valid JSON,
    [refresh] reveals the panel, logs the error and posts one message to
    the webview, which carries the error; no refresh message is posted. *)
Theorem refresh_invalid_json this panel vegaSpec error :
  _panel this = Some panel ->
  openTextDocument (_uri this) = Some vegaSpec ->
  JSON_parse vegaSpec = Throw error ->
  refresh fsPath Uri_toString path_join path_dirname openTextDocument JSON_parse fs this
  = Run [Reveal panel (viewColumn panel) true; OpenTextDocument (_uri this);
         LogMessage Debug "refresh(): file:"; LogMessage Error "refresh():";
         PostMessage panel (ErrorMessage error)] (Ok tt) /\
  posted (trace_of (refresh fsPath Uri_toString path_join path_dirname openTextDocument
                      JSON_parse fs this)) = [ErrorMessage error].
Proof.
  intros Hpanel Hopen Hparse.
  assert (refresh fsPath Uri_toString path_join path_dirname openTextDocument
            JSON_parse fs this
          = Run [Reveal panel (viewColumn panel) true; OpenTextDocument (_uri this);
                 LogMessage Debug "refresh(): file:"; LogMessage Error "refresh():";
                 PostMessage panel (ErrorMessage error)] (Ok tt)) as E.
  { unfold refresh, the_panel. rewrite Hpanel, Hopen.
    unfold refresh_document. rewrite Hparse. reflexivity. }
  rewrite E. split; reflexivity.
Qed.

(** C7. The resource roots always end with the [scripts] directory of
    the extension; before it stands the workspace folder of the previewed
    uri when there is one, and otherwise the directory of the previewed
    file when the uri has no scheme or the scheme [file]; the list is
    never empty. *)
Theorem getLocalResourceRoots_roots this :
  exists roots,
    getLocalResourceRoots fsPath Uri_file path_join path_dirname getWorkspaceFolder this
    = Run [LogMessage Debug "getLocalResourceRoots():"] (Ok roots) /\
    In (Uri_file (path_join (_extensionPath this) "scripts")) roots /\
    (forall folder, getWorkspaceFolder (_uri this) = Some folder ->
       roots = [wf_uri folder; Uri_file (path_join (_extensionPath this) "scripts")]) /\
    (getWorkspaceFolder (_uri this) = None ->
     scheme (_uri this) = "" \/ scheme (_uri this) = "file" ->
       roots = [Uri_file (path_dirname (fsPath (_uri this)));
                Uri_file (path_join (_extensionPath this) "scripts")]) /\
    (getWorkspaceFolder (_uri this) = None ->
     scheme (_uri this) <> "" -> scheme (_uri this) <> "file" ->
       roots = [Uri_file (path_join (_extensionPath this) "scripts")]) /\
    roots <> [].
Proof.
  unfold getLocalResourceRoots.
  destruct (getWorkspaceFolder (_uri this)) as [folder|].
  - eexists. split; [reflexivity|]. simpl.
    split; [auto|]. split; [intros folder' E; inversion E; reflexivity|].
    split; [discriminate|]. split; discriminate.
  - destruct (String.eqb (scheme (_uri this)) "") eqn:E1; simpl.
    { apply String.eqb_eq in E1. eexists. split; [reflexivity|]. simpl.
      split; [auto|]. split; [discriminate|]. split; [reflexivity|].
      split; [congruence|discriminate]. }
    apply String.eqb_neq in E1.
    destruct (String.eqb (scheme (_uri this)) "file") eqn:E2; simpl.
    { apply String.eqb_eq in E2. eexists. split; [reflexivity|]. simpl.
      split; [auto|]. split; [discriminate|]. split; [reflexivity|].
      split; [congruence|discriminate]. }
    apply String.eqb_neq in E2.
    eexists. split; [reflexivity|]. simpl.
    split; [auto|]. split; [discriminate|].
    split; [intros _ [H|H]; congruence|]. split; [reflexivity|discriminate].
Qed.

(** C8. From a saved state that holds a uri, [deserializeWebviewPanel]
    constructs a preview with the serializer's view type and extension
    path, the uri parsed from the state, the view column of the restored
    panel and that panel itself (no panel is created: the handlers and
    the html are set on the restored one), and adds this preview to the
    preview manager. *)
Theorem deserializeWebviewPanel_restores this webviewPanel state stateUri :
  uri state = Some stateUri ->
  exists preview,
    new_DataPreview fsPath Uri_file Uri_toString path_join path_dirname path_basename
      replace_scripts getWorkspaceFolder createWebviewPanel
      (viewType this) (extensionPath this) (Uri_parse stateUri)
      (viewColumn webviewPanel) (template this) (Some webviewPanel)
    = Run [OnDidDispose webviewPanel; OnDidChangeViewState webviewPanel;
           OnDidReceiveMessage webviewPanel; SetHtml webviewPanel (_html preview)]
        (Ok preview) /\
    _uri preview = Uri_parse stateUri /\
    _panel preview = Some webviewPanel /\
    deserializeWebviewPanel fsPath Uri_file Uri_parse Uri_toString path_join
      path_dirname path_basename replace_scripts getWorkspaceFolder createWebviewPanel
      this webviewPanel state
    = Run [LogMessage Debug "deserializeWeviewPanel(): url:";
           OnDidDispose webviewPanel; OnDidChangeViewState webviewPanel;
           OnDidReceiveMessage webviewPanel; SetHtml webviewPanel (_html preview);
           PreviewManagerAdd preview] (Ok tt).
Proof.
  intros Hstate. unfold deserializeWebviewPanel. rewrite Hstate.
  eexists. split; [reflexivity|]. repeat split; reflexivity.
Qed.

End Host.

(** On the layered chart next to [a.csv] (with text), [b.csv] (empty) and
    no [c.csv], the map has the text of [a.csv]. *)
Lemma getData_loads_layered :
  exists t m,
    getData posix_fsPath posix_join posix_dirname disk chart_preview layered_spec
    = Run t (Ok m) /\
    m !! "a.csv" = Some "x,y".
Proof.
  destruct (getData_loads posix_fsPath posix_join posix_dirname disk chart_preview
              layered_spec [Str "a.csv"; Str "b.csv"; Str "c.csv"])
    as (t & m & Hrun & _ & Hm).
  - vm_compute. reflexivity.
  - intros url [<-|[<-|[<-|[]]]]; eexists; reflexivity.
  - intros s [E|[E|[E|[]]]] _; inversion E; subst s; vm_compute; discriminate.
  - exists t, m. split; [exact Hrun|]. apply Hm.
    + left. reflexivity.
    + reflexivity.
    + vm_compute. reflexivity.
    + discriminate.
    + discriminate.
Defined.

(** C2, as stated, fails on a spec whose data is nested two [spec]
    keywords deep: the url is referenced in the spec, it is local and its
    file exists, and the map [getData] returns is empty. *)
Lemma getData_misses_nested_spec :
  referenced nested_spec (Str "a.csv") /\
  String.prefix "http" "a.csv" = false /\
  disk (resolve posix_fsPath posix_join posix_dirname chart_preview "a.csv")
  = Some (File "x,y") /\
  getData posix_fsPath posix_join posix_dirname disk chart_preview nested_spec
  = Run [LogMessage Debug "getData(): dataUrls:"] (Ok empty) /\
  (empty : gmap string string) !! "a.csv" = None.
Proof.
  split; [|split; [|split; [|split]]].
  - apply ref_nested, ref_nested, ref_here.
    apply emb_data_object; [reflexivity|reflexivity|discriminate].
  - reflexivity.
  - vm_compute. reflexivity.
  - vm_compute. reflexivity.
  - apply lookup_empty.
Qed.

(** On the cut document the webview gets the syntax error. *)
Lemma refresh_invalid_json_cut :
  posted (trace_of (refresh posix_fsPath uri_text posix_join posix_dirname cut_document
                      strict_parse disk chart_preview))
  = [ErrorMessage (MkError "SyntaxError" "Unexpected token d in JSON at position 2")].
Proof.
  apply (refresh_invalid_json posix_fsPath uri_text posix_join posix_dirname
           cut_document strict_parse disk chart_preview chart_panel "{ data: ").
  - reflexivity.
  - reflexivity.
  - reflexivity.
Defined.

(** Restoring the chart's panel from its saved uri. *)
Lemma deserializeWebviewPanel_restores_chart :
  exists preview,
    _uri preview = file_uri "/work/chart.vl.json" /\
    _panel preview = Some chart_panel /\
    deserializeWebviewPanel posix_fsPath file_uri parse_file_uri uri_text posix_join
      posix_dirname posix_basename keep_html no_workspace new_panel
      chart_serializer chart_panel (MkState (Some "file:///work/chart.vl.json"))
    = Run [LogMessage Debug "deserializeWeviewPanel(): url:";
           OnDidDispose chart_panel; OnDidChangeViewState chart_panel;
           OnDidReceiveMessage chart_panel; SetHtml chart_panel (_html preview);
           PreviewManagerAdd preview] (Ok tt).
Proof.
  destruct (deserializeWebviewPanel_restores posix_fsPath file_uri parse_file_uri
              uri_text posix_join posix_dirname posix_basename keep_html no_workspace
              new_panel chart_serializer chart_panel
              (MkState (Some "file:///work/chart.vl.json"))
              "file:///work/chart.vl.json" eq_refl)
    as (preview & _ & Huri & Hpanel & Hrun).
  exists preview. split; [|split]; assumption.
Defined.

(** On the remote chart nothing is looked up for the remote url, and the
    returned map has no entry for it nor for the missing [c.csv]. *)
Lemma getData_omits_remote :
  ~ In "https://host/cars.json"
      (accessed (trace_of (getData posix_fsPath posix_join posix_dirname disk
                             chart_preview remote_spec))) /\
  exists t m,
    getData posix_fsPath posix_join posix_dirname disk chart_preview remote_spec
    = Run t (Ok m) /\
    m !! "https://host/cars.json" = None /\ m !! "c.csv" = None.
Proof.
  destruct (getData_omits posix_fsPath posix_join posix_dirname disk chart_preview
              remote_spec) as (Haccessed & _ & Hmap).
  split; [apply Haccessed; reflexivity|].
  eexists _, _. split; [vm_compute; reflexivity|].
  split; eapply Hmap; try (vm_compute; reflexivity).
  - left. reflexivity.
  - right. vm_compute. reflexivity.
Defined.

(** The roots of the chart's preview outside a workspace: the directory
    of the chart, then the scripts of the extension. *)
Lemma getLocalResourceRoots_roots_chart :
  exists roots,
    getLocalResourceRoots posix_fsPath file_uri posix_join posix_dirname no_workspace
      chart_preview
    = Run [LogMessage Debug "getLocalResourceRoots():"] (Ok roots) /\
    roots = [file_uri "/work"; file_uri "/ext/scripts"].
Proof.
  destruct (getLocalResourceRoots_roots posix_fsPath file_uri posix_join posix_dirname
              no_workspace chart_preview) as (roots & Hrun & _ & _ & Hfile & _).
  exists roots. split; [exact Hrun|].
  apply Hfile; [reflexivity|right; reflexivity].
Defined.

End PreviewProperties.

(** *** The properties of the JSON5 data provider *)

Module ProviderProperties.
Import Js Json5DataProvider Samples.

Section Provider.

Variable T : Type.
Variable readDataFile : string -> res string.
Variable json5_parse : string -> res value.
Variable convertJsonData : value -> res T.

Local Abbreviation provide := (getData T readDataFile json5_parse convertJsonData).

(** C3 (as amended). When the file is read, its content is parsed and
    [convertJsonData] returns on the parsed value, [getData] calls
    [loadData] exactly once, with what [convertJsonData] made of the
    parsed value, and reports nothing. *)
Theorem getData_parsed dataUrl parseOptions content parsed converted :
  readDataFile dataUrl = Ok content ->
  json5_parse content = Ok parsed ->
  convertJsonData parsed = Ok converted ->
  provide dataUrl parseOptions = Run [LoadData converted] (Ok tt) /\
  loaded (trace_of (provide dataUrl parseOptions)) = [converted] /\
  shown (trace_of (provide dataUrl parseOptions)) = [].
Proof.
  intros Hread Hparse Hconvert.
  assert (provide dataUrl parseOptions = Run [LoadData converted] (Ok tt)) as E.
  { unfold getData. rewrite Hread. simpl. rewrite Hparse. simpl.
    rewrite Hconvert. reflexivity. }
  rewrite E. repeat split.
Qed.

(** C4. When reading the file or parsing its content throws, [getData]
    logs the error, shows one error message to the user, and calls
    [loadData] once, with what [convertJsonData] makes of the empty
    array; it does nothing else. *)
Theorem getData_parse_error dataUrl parseOptions error converted :
  readDataFile dataUrl = Throw error \/
  (exists content, readDataFile dataUrl = Ok content /\
                   json5_parse content = Throw error) ->
  convertJsonData (Arr []) = Ok converted ->
  provide dataUrl parseOptions
  = Run [LogError ("getData(): Error parsing '" +:+ dataUrl +:+ "' " +:+ nl_tab
                   +:+ " Error:") (message error);
         ShowErrorMessage ("Unable to parse data file: '" +:+ dataUrl +:+ "'. "
                           +:+ nl_tab +:+ " Error: " +:+ message error);
         LoadData converted] (Ok tt) /\
  loaded (trace_of (provide dataUrl parseOptions)) = [converted] /\
  length (shown (trace_of (provide dataUrl parseOptions))) = 1.
Proof.
  intros Hthrow Hconvert.
  assert (provide dataUrl parseOptions
          = Run [LogError ("getData(): Error parsing '" +:+ dataUrl +:+ "' " +:+ nl_tab
                           +:+ " Error:") (message error);
                 ShowErrorMessage ("Unable to parse data file: '" +:+ dataUrl +:+ "'. "
                                   +:+ nl_tab +:+ " Error: " +:+ message error);
                 LoadData converted] (Ok tt)) as E.
  { unfold getData. destruct Hthrow as [Hread|(content & Hread & Hparse)].
    - rewrite Hread. simpl. rewrite Hconvert. reflexivity.
    - rewrite Hread. simpl. rewrite Hparse. simpl. rewrite Hconvert. reflexivity. }
  rewrite E. repeat split.
Qed.

End Provider.

(** C9. For every data url the provider has no table names and no
    schema. *)
Theorem provider_no_tables_no_schema :
  forall dataUrl : string,
    getDataTableNames dataUrl = [] /\ getDataSchema dataUrl = Null.
Proof.
  intros dataUrl. unfold getDataTableNames, getDataSchema. split; reflexivity.
Qed.

(** The points file is loaded as its two numbers. *)
Lemma getData_parsed_points :
  getData value read_json5 parse_json5 to_rows "/work/points.json5" Undefined
  = Run [LoadData (Arr [Num 1; Num 2])] (Ok tt).
Proof.
  apply (getData_parsed value read_json5 parse_json5 to_rows "/work/points.json5"
           Undefined "[1, 2,]" (Arr [Num 1; Num 2]) (Arr [Num 1; Num 2])).
  - reflexivity.
  - reflexivity.
  - reflexivity.
Defined.

(** A missing file is reported and the empty array is loaded. *)
Lemma getData_parse_error_missing :
  loaded (trace_of (getData value read_json5 parse_json5 to_rows "/work/none.json5"
                      Undefined))
  = [Arr []].
Proof.
  apply (getData_parse_error value read_json5 parse_json5 to_rows "/work/none.json5"
           Undefined (MkError "Error" "ENOENT: no such file or directory") (Arr [])).
  - left. reflexivity.
  - reflexivity.
Defined.

(** C3, as stated, fails on a file whose content parses to a value that
    [convertJsonData] refuses: the file is read and parsed, the
    conversion (made outside the [try]) throws, and [loadData] is never
    called. *)
Lemma getData_parsed_not_loaded :
  ExtraSamples.read_null "/work/null.json5" = Ok "null" /\
  ExtraSamples.parse_null "null" = Ok Null /\
  getData value ExtraSamples.read_null ExtraSamples.parse_null
    ExtraSamples.rows_or_throw "/work/null.json5" Undefined
  = Run [] (Throw (TypeError "Cannot convert undefined or null to object")) /\
  loaded (trace_of (getData value ExtraSamples.read_null ExtraSamples.parse_null
                      ExtraSamples.rows_or_throw "/work/null.json5" Undefined))
  = [].
Proof.
  split; [reflexivity|]. split; [reflexivity|].
  split; vm_compute; reflexivity.
Qed.

End ProviderProperties.

(** *** Further facts on the preview panel *)

Module ExtraFacts.
Import Js JsFacts Preview PreviewFacts PreviewExtra.

Lemma getDataUrls_fuel_free spec : getDataUrls spec <> OutOfFuel.
Proof. unfold getDataUrls. apply fuel_enough. lia. Qed.

Lemma allDataUrls_fuel_free spec : allDataUrls spec <> OutOfFuel.
Proof.
  unfold allDataUrls. pose proof (getDataUrls_fuel_free spec) as H1.
  destruct (getDataUrls spec) as [us| |]; run_bind; try congruence.
  destruct (get spec K_spec) as [nested| |] eqn:Hget; try congruence.
  - pose proof (getDataUrls_fuel_free nested) as H2.
    destruct (getDataUrls nested); congruence.
  - destruct spec; discriminate Hget.
Qed.

Lemma is_local_fuel_free url : is_local url <> OutOfFuel.
Proof. destruct url; unfold is_local; run_bind; congruence. Qed.

Lemma posted_app t1 t2 : posted (t1 ++ t2) = posted t1 ++ posted t2.
Proof. unfold posted. apply flat_map_app. Qed.

Lemma exists_calls_app t1 t2 : exists_calls (t1 ++ t2) = exists_calls t1 ++ exists_calls t2.
Proof. unfold exists_calls. apply flat_map_app. Qed.

Lemma read_calls_app t1 t2 : read_calls (t1 ++ t2) = read_calls t1 ++ read_calls t2.
Proof. unfold read_calls. apply flat_map_app. Qed.

Lemma posted_log_or_fs t : Forall log_or_fs t -> posted t = [].
Proof.
  induction 1 as [|e t He _ IH]; [reflexivity|].
  destruct e; simpl in *; try contradiction; exact IH.
Qed.

(** A filter throws as soon as its predicate throws on one item. *)
Lemma filterM_throws {A} (p : A -> res bool) xs x e :
  (forall y, In y xs -> p y <> OutOfFuel) ->
  In x xs -> p x = Throw e ->
  exists e', filterM p xs = Throw e'.
Proof.
  intros Hfuel Hin Hx. pose proof (filterM_fuel p xs Hfuel) as Hno.
  destruct (filterM p xs) as [kept|e'|] eqn:Hf; [|eauto|congruence].
  apply filterM_Ok_inv in Hf as [Hall _].
  destruct (Hall x Hin) as [b Hb]. congruence.
Qed.

(** The local urls a filter keeps are the local strings of the list. *)
Lemma local_strings_kept urls kept :
  filterM is_local urls = Ok kept ->
  local_strings kept = local_strings urls /\
  forall url, In url kept -> exists s, url = Str s.
Proof.
  revert kept. induction urls as [|url rest IH]; intros kept; simpl.
  - intros H. inversion H; subst. split; [reflexivity|intros ? []].
  - destruct (is_local url) as [b| |] eqn:Hb; try discriminate.
    destruct (filterM is_local rest) as [kept'| |]; try discriminate.
    intros H. inversion H; subst. destruct (IH kept' eq_refl) as [IH1 IH2].
    apply is_local_Ok in Hb as (s & -> & ->).
    destruct (String.prefix "http" s) eqn:Hs; simpl.
    + split; [exact IH1|exact IH2].
    + rewrite Hs. simpl. split; [congruence|].
      intros url [<-|Hin]; [eauto|auto].
Qed.

Section HostFacts.

Variable fsPath : Uri -> string.
Variable path_join : string -> string -> string.
Variable path_dirname : string -> string.
Variable fs : string -> option node.
Variable this : DataPreview.

Local Abbreviation path_of := (resolve fsPath path_join path_dirname this).
Local Abbreviation step := (getData_step fsPath path_join path_dirname fs this).
Local Abbreviation load := (getData fsPath path_join path_dirname fs this).

(** The four ways a round of the loop of [getData] can go. *)
Lemma step_outcomes dataFiles url :
  (exists s, url = Str s /\ fs (path_of s) = None /\
     step dataFiles url
     = Run [ExistsSync s (path_of s); LogMessage Error "getFileData():";
            LogMessage Debug "getData(): localDataUrl:"] (Ok dataFiles)) \/
  (exists s text, url = Str s /\ fs (path_of s) = Some (File text) /\
     step dataFiles url
     = Run [ExistsSync s (path_of s); ReadFileSync s (path_of s);
            LogMessage Debug "getData(): localDataUrl:"]
         (Ok (if String.eqb text "" then dataFiles else obj_set dataFiles s text))) \/
  (exists s e, url = Str s /\ fs (path_of s) = Some Directory /\
     step dataFiles url
     = Run [ExistsSync s (path_of s); ReadFileSync s (path_of s)] (Throw e)) \/
  ((forall s, url <> Str s) /\ exists e, step dataFiles url = Run [] (Throw e)).
Proof.
  destruct url as [| | | |s| | |];
    try (right; right; right; split; [intros; discriminate|eexists; reflexivity]).
  destruct (fs (path_of s)) as [[text|]|] eqn:Hfs.
  - right; left. exists s, text. auto using step_file.
  - right; right; left. destruct (step_directory _ _ _ _ _ dataFiles s Hfs) as [e He].
    exists s, e. auto.
  - left. exists s. auto using step_missing.
Qed.

(** The loop causes logger and file system calls only, and never runs
    out of fuel. *)
Lemma loop_shape kept dataFiles :
  Forall log_or_fs (trace_of (forEach_io kept step dataFiles)) /\
  outcome (forEach_io kept step dataFiles) <> OutOfFuel.
Proof.
  revert dataFiles. induction kept as [|url rest IH]; intros dataFiles; simpl.
  - split; [constructor|discriminate].
  - unfold mbind, io_bind.
    destruct (step_outcomes dataFiles url)
      as [(s & -> & _ & ->)|[(s & text & -> & _ & ->)
         |[(s & e & -> & _ & ->)|(_ & e & ->)]]]; simpl;
      try (split; [repeat constructor|discriminate]).
    + destruct (IH dataFiles) as [Ht Hr].
      destruct (forEach_io rest step dataFiles) as [t r]. simpl in *.
      split; [repeat constructor; assumption|assumption].
    + destruct (IH (if String.eqb text "" then dataFiles else obj_set dataFiles s text))
        as [Ht Hr].
      destruct (forEach_io rest step _) as [t r]. simpl in *.
      split; [repeat constructor; assumption|assumption].
Qed.

Lemma getData_shape spec :
  Forall log_or_fs (trace_of (load spec)) /\ outcome (load spec) <> OutOfFuel.
Proof.
  rewrite getData_parts. pose proof (allDataUrls_fuel_free spec) as Hurls.
  destruct (allDataUrls spec) as [urls| |]; simpl;
    try (split; [constructor|congruence]).
  pose proof (filterM_fuel is_local urls (fun url _ => is_local_fuel_free url)) as Hkept.
  destruct (filterM is_local urls) as [kept| |]; simpl;
    try (split; [repeat constructor|congruence]).
  destruct (loop_shape kept empty) as [Ht Hr].
  destruct (forEach_io kept step empty) as [t r]. simpl in *.
  split; [constructor; [exact I|assumption]|assumption].
Qed.

Lemma obj_set_Some (m : gmap string string) k v s text :
  obj_set m k v !! s = Some text ->
  (s = k /\ text = v /\ k <> "__proto__") \/ m !! s = Some text.
Proof.
  unfold obj_set. destruct (String.eqb k "__proto__") eqn:Hk; [auto|].
  apply String.eqb_neq in Hk.
  destruct (decide (k = s)) as [->|Hne].
  - rewrite lookup_insert_eq. intros H. inversion H. auto.
  - rewrite lookup_insert_ne by exact Hne. auto.
Qed.

(** Every entry of the map the loop returns was there before, or is the
    text, not empty, of the file of one of its urls. *)
Lemma loop_sound kept dataFiles t m s text :
  forEach_io kept step dataFiles = Run t (Ok m) ->
  m !! s = Some text ->
  (In (Str s) kept /\ fs (path_of s) = Some (File text) /\
   text <> "" /\ s <> "__proto__") \/
  dataFiles !! s = Some text.
Proof.
  revert dataFiles t. induction kept as [|url rest IH]; intros dataFiles t; simpl.
  - unfold mret, io_ret. intros H. inversion H; subst. auto.
  - intros H Hs. apply io_bind_Ok in H as (t1 & m1 & t2 & Hstep & Hrest & ->).
    destruct (IH _ _ Hrest Hs) as [(Hin & Hrest')|Hm1];
      [left; split; [right; exact Hin|exact Hrest']|].
    destruct (step_outcomes dataFiles url)
      as [(s0 & -> & _ & E)|[(s0 & text0 & -> & Hfile & E)
         |[(s0 & e & -> & _ & E)|(_ & e & E)]]];
      rewrite E in Hstep; inversion Hstep; subst; [auto|].
    destruct (String.eqb text0 "") eqn:Htext0; [auto|].
    apply String.eqb_neq in Htext0.
    apply obj_set_Some in Hm1 as [(-> & -> & Hproto)|Hm1]; [|auto].
    left. split; [left; reflexivity|auto].
Qed.

(** When the loop returns, none of its urls names a directory and each
    is a string. *)
Lemma loop_Ok_urls kept dataFiles t m url :
  forEach_io kept step dataFiles = Run t (Ok m) -> In url kept ->
  exists s, url = Str s /\ fs (path_of s) <> Some Directory.
Proof.
  revert dataFiles t. induction kept as [|url0 rest IH]; intros dataFiles t; simpl.
  - intros _ [].
  - intros H Hin. apply io_bind_Ok in H as (t1 & m1 & t2 & Hstep & Hrest & ->).
    destruct Hin as [->|Hin]; [|exact (IH _ _ Hrest Hin)].
    destruct (step_outcomes dataFiles url)
      as [(s0 & -> & Hfs & E)|[(s0 & text0 & -> & Hfs & E)
         |[(s0 & e & -> & _ & E)|(_ & e & E)]]];
      rewrite E in Hstep; inversion Hstep; subst;
      exists s0; split; try reflexivity; congruence.
Qed.

(** When the loop returns, it asked [existsSync] for each of its urls, in
    order, and [readFileSync] for those that exist. *)
Lemma loop_calls kept dataFiles t m :
  forEach_io kept step dataFiles = Run t (Ok m) ->
  (forall url, In url kept -> is_local url = Ok true) ->
  exists_calls t = local_strings kept /\
  read_calls t
  = List.filter (fun s => existsSync fs (path_of s)) (local_strings kept).
Proof.
  revert dataFiles t. induction kept as [|url rest IH]; intros dataFiles t; simpl.
  - unfold mret, io_ret. intros H _. inversion H; subst. auto.
  - intros H Hlocal. apply io_bind_Ok in H as (t1 & m1 & t2 & Hstep & Hrest & ->).
    destruct (IH _ _ Hrest) as [IH1 IH2]; [intros u Hu; apply Hlocal; auto|].
    rewrite exists_calls_app, read_calls_app, IH1, IH2.
    pose proof (Hlocal url (or_introl eq_refl)) as Hurl.
    apply is_local_Ok in Hurl as (s & -> & Hhttp).
    assert (String.prefix "http" s = false) as Hs
      by (destruct (String.prefix "http" s); [discriminate|reflexivity]).
    rewrite Hs. simpl. unfold existsSync at 2.
    destruct (step_outcomes dataFiles (Str s))
      as [(s0 & E0 & Hfs & E)|[(s0 & text0 & E0 & Hfs & E)
         |[(s0 & e & E0 & _ & E)|(_ & e & E)]]];
      rewrite E in Hstep; inversion Hstep; subst;
      inversion E0; subst s0; rewrite Hfs; auto.
Qed.

End HostFacts.

(** *** Disposal *)

Lemma defined_items_app xs ys :
  defined_items (xs ++ ys) = defined_items xs ++ defined_items ys.
Proof. unfold defined_items. apply flat_map_app. Qed.

(** With one unit of fuel per entry and one to spare the loop empties the
    array, disposing the defined entries from the last to the first. *)
Lemma dispose_loop_drains fuel disposables :
  length disposables < fuel ->
  dispose_loop fuel disposables
  = Run (map ItemDispose (rev (defined_items disposables))) (Ok []).
Proof.
  revert disposables. induction fuel as [|fuel IH]; intros disposables Hlen; [lia|].
  induction disposables as [|item front _] using rev_ind.
  - reflexivity.
  - simpl. rewrite length_app in *. simpl in *.
    replace (length front + 1 =? 0)%nat with false
      by (symmetry; apply Nat.eqb_neq; lia).
    rewrite List.last_last, List.removelast_last.
    rewrite defined_items_app, rev_app_distr.
    unfold mbind, io_bind. rewrite IH by lia.
    destruct item as [d|]; reflexivity.
Qed.

End ExtraFacts.

(** *** Further properties of the preview panel and the provider *)

Module ExtraProperties.
Import Js JsFacts Preview PreviewFacts PreviewExtra ExtraFacts Samples ExtraSamples.

Example getDataUrls_number_url : getDataUrls number_url_spec = Ok [Num 5].
Proof. vm_compute. reflexivity. Qed.

Example dispose_loop_three :
  dispose_loop 4 [Some 1; None; Some 3] = Run [ItemDispose 3; ItemDispose 1] (Ok []).
Proof. vm_compute. reflexivity. Qed.

Example dispose_loop_short_fuel :
  dispose_loop 2 [Some 1; None; Some 3] = Run [ItemDispose 3] OutOfFuel.
Proof. vm_compute. reflexivity. Qed.

(** X1. [getDataUrls] reads six properties of a spec and no other: two
    values that can be read and agree on [data], [transform], [layer],
    [concat], [hconcat] and [vconcat] give the same result, the same
    throw included. In particular the [spec] property is not followed. *)
Theorem getDataUrls_reads_six_keys spec spec' :
  readable spec -> readable spec' ->
  (forall k, In k [K_data; K_transform; K_layer; K_concat; K_hconcat; K_vconcat] ->
     prop spec k = prop spec' k) ->
  getDataUrls spec = getDataUrls spec'.
Proof.
  intros Hr Hr' Hsame.
  rewrite (getDataUrls_unfold spec), (getDataUrls_unfold spec').
  rewrite !body_blocks by assumption. unfold layers_of.
  rewrite (Hsame K_data), (Hsame K_transform), (Hsame K_layer), (Hsame K_concat),
    (Hsame K_hconcat), (Hsame K_vconcat) by (simpl; tauto).
  reflexivity.
Qed.

(** The layered chart with a title and a nested [spec] gives the urls of
    the layered chart. *)
Lemma getDataUrls_reads_six_keys_decorated :
  getDataUrls decorated_spec = getDataUrls layered_spec.
Proof.
  apply getDataUrls_reads_six_keys.
  - split; discriminate.
  - split; discriminate.
  - intros k [<-|[<-|[<-|[<-|[<-|[<-|[]]]]]]]; reflexivity.
Defined.

(** X2. A spec that is no object has no data urls: for a boolean, a
    number, a string, an array (whose items are not visited) and a
    function [getDataUrls] returns the empty list; for [null] it throws. *)
Theorem getDataUrls_non_object :
  forall (b : bool) (n : Z) (s : string) (items : list value) (f : string),
    getDataUrls (Bool b) = Ok [] /\
    getDataUrls (Num n) = Ok [] /\
    getDataUrls (Str s) = Ok [] /\
    getDataUrls (Arr items) = Ok [] /\
    getDataUrls (Builtin f) = Ok [] /\
    exists msg, getDataUrls Null = Throw (TypeError msg).
Proof.
  intros b n s items f. repeat split; try reflexivity.
  eexists. reflexivity.
Qed.

Section Host.

Variable fsPath : Uri -> string.
Variable Uri_file : string -> Uri.
Variable Uri_toString : Uri -> bool -> string.
Variable path_join : string -> string -> string.
Variable path_dirname : string -> string.
Variable path_basename : string -> string.
Variable replace_scripts : string -> string -> string.
Variable getWorkspaceFolder : Uri -> option WorkspaceFolder.
Variable createWebviewPanel :
  string -> string -> option ViewColumn -> WebviewOptions -> WebviewPanel.
Variable openTextDocument : Uri -> option string.
Variable JSON_parse : string -> res value.
Variable fs : string -> option node.

Local Abbreviation path_of := (resolve fsPath path_join path_dirname).
Local Abbreviation load := (getData fsPath path_join path_dirname fs).
Local Abbreviation reload :=
  (refresh fsPath Uri_toString path_join path_dirname openTextDocument JSON_parse fs).

(** X3. Every entry of the map [getData] returns is sound: its key is a
    local url collected from the spec, other than [__proto__], and its
    value is the text, not empty, of the file the url resolves to. *)
Theorem getData_entries_sound this spec t m s text :
  load this spec = Run t (Ok m) ->
  m !! s = Some text ->
  s <> "__proto__" /\ text <> "" /\
  String.prefix "http" s = false /\
  fs (path_of this s) = Some (File text) /\
  exists urls, allDataUrls spec = Ok urls /\ In (Str s) urls.
Proof.
  intros Hload Hs.
  apply getData_Ok in Hload as (urls & kept & t' & Hurls & Hkept & Hloop).
  destruct (loop_sound fsPath path_join path_dirname fs this kept empty t' m s text
              Hloop Hs) as [(Hin & Hfile & Htext & Hproto)|Hempty].
  - apply (local_urls urls kept Hkept) in Hin as [Hin (s' & E & Hlocal)].
    inversion E; subst s'. repeat split; eauto.
  - rewrite lookup_empty in Hempty. discriminate Hempty.
Qed.

(** X4. [getData] returns exactly when the urls of the spec and of its
    [spec] property are collected without a throw, are all strings, and
    no local one names a directory. *)
Theorem getData_returns_iff this spec :
  (exists t m, load this spec = Run t (Ok m)) <->
  (exists urls,
     allDataUrls spec = Ok urls /\
     (forall url, In url urls -> exists s, url = Str s) /\
     (forall s, In (Str s) urls -> String.prefix "http" s = false ->
        fs (path_of this s) <> Some Directory)).
Proof.
  split.
  - intros (t & m & Hload).
    apply getData_Ok in Hload as (urls & kept & t' & Hurls & Hkept & Hloop).
    pose proof (local_urls urls kept Hkept) as [Hstr Hlocal].
    exists urls. split; [exact Hurls|]. split; [exact Hstr|].
    intros s Hin Hhttp.
    destruct (loop_Ok_urls fsPath path_join path_dirname fs this kept empty t' m (Str s)
                Hloop) as (s' & E & Hdir).
    { apply Hlocal. eauto. }
    inversion E; subst s'. exact Hdir.
  - intros (urls & Hurls & Hstr & Hdir).
    destruct (local_urls_returns urls Hstr) as [kept Hkept].
    pose proof (local_urls urls kept Hkept) as [_ Hlocal].
    destruct (loop_returns fsPath path_join path_dirname fs this kept empty)
      as (t & m & Hloop & _).
    { intros url Hurl. apply Hlocal in Hurl as [Hin (s & -> & Hhttp)].
      exists s. split; [reflexivity|]. apply Hdir; assumption. }
    exists (LogMessage Debug "getData(): dataUrls:" :: t), m.
    rewrite getData_parts, Hurls, Hkept, Hloop. reflexivity.
Qed.

(** X5. One url that is not a string makes [getData] throw before any
    file is looked up: the only call made is the logger's. *)
Theorem getData_rejects_non_string_url this spec urls url :
  allDataUrls spec = Ok urls ->
  In url urls -> (forall s, url <> Str s) ->
  exists e, load this spec = Run [LogMessage Debug "getData(): dataUrls:"] (Throw e).
Proof.
  intros Hurls Hin Hstr.
  assert (exists e, is_local url = Throw e) as [e He].
  { destruct url; try (eexists; reflexivity). destruct (Hstr s eq_refl). }
  destruct (filterM_throws is_local urls url e
              (fun y _ => is_local_fuel_free y) Hin He) as [e' Hfilter].
  exists e'. rewrite getData_parts, Hurls, Hfilter. reflexivity.
Qed.

(** X6. When [getData] returns, it asked [existsSync] once for each
    occurrence of a local url, in the order the urls were collected, and
    [readFileSync] for exactly those whose path exists, in the same
    order. *)
Theorem getData_calls_in_order this spec urls t m :
  allDataUrls spec = Ok urls ->
  load this spec = Run t (Ok m) ->
  exists_calls t = local_strings urls /\
  read_calls t
  = List.filter (fun s => existsSync fs (path_of this s)) (local_strings urls).
Proof.
  intros Hurls Hload. rewrite getData_parts, Hurls in Hload.
  destruct (filterM is_local urls) as [kept| |] eqn:Hkept; try discriminate Hload.
  destruct (forEach_io kept _ empty) as [t' r] eqn:Hloop.
  inversion Hload; subst.
  destruct (local_strings_kept urls kept Hkept) as [Hsame _].
  destruct (loop_calls fsPath path_join path_dirname fs this kept empty t' m Hloop)
    as [Hexists Hread].
  { intros url Hurl.
    apply (proj2 (filterM_Ok_inv is_local urls kept Hkept)) in Hurl. apply Hurl. }
  simpl. rewrite Hexists, Hread, Hsame. auto.
Qed.

(** What the callback of [refresh] does, by the outcomes of [JSON.parse]
    and [getData]. *)
Lemma refresh_document_cases this panel vegaSpec :
  refresh_document fsPath Uri_toString path_join path_dirname JSON_parse fs this panel
    vegaSpec =
  match JSON_parse vegaSpec with
  | Ok spec =>
      match load this spec with
      | Run t (Ok data) =>
          Run (LogMessage Debug "refresh(): file:" :: t ++
               [PostMessage panel
                  (RefreshMessage (_fileName this) (Uri_toString (_uri this) false)
                     vegaSpec data)]) (Ok tt)
      | Run t (Throw e) =>
          Run (LogMessage Debug "refresh(): file:" :: t ++
               [LogMessage Error "refresh():"; PostMessage panel (ErrorMessage e)])
            (Ok tt)
      | Run t OutOfFuel => Run (LogMessage Debug "refresh(): file:" :: t) OutOfFuel
      end
  | Throw e =>
      Run [LogMessage Debug "refresh(): file:"; LogMessage Error "refresh():";
           PostMessage panel (ErrorMessage e)] (Ok tt)
  | OutOfFuel => Run [LogMessage Debug "refresh(): file:"] OutOfFuel
  end.
Proof.
  unfold refresh_document. destruct (JSON_parse vegaSpec) as [spec|e|]; try reflexivity.
  unfold mbind, io_bind, lift, emit, try_catch. simpl.
  destruct (load this spec) as [t [data|e|]]; reflexivity.
Qed.

Lemma refresh_opened this panel vegaSpec :
  _panel this = Some panel -> openTextDocument (_uri this) = Some vegaSpec ->
  reload this =
  match refresh_document fsPath Uri_toString path_join path_dirname JSON_parse fs this
          panel vegaSpec with
  | Run t r =>
      Run (Reveal panel (viewColumn panel) true :: OpenTextDocument (_uri this) :: t) r
  end.
Proof.
  intros Hpanel Hopen. unfold refresh, the_panel. rewrite Hpanel, Hopen.
  unfold mbind, io_bind, lift, emit. simpl.
  destruct (refresh_document _ _ _ _ _ _ _ _ _) as [t r]. destruct r; reflexivity.
Qed.

(** X7. When the document parses and [getData] returns, [refresh] posts
    one message: a refresh message with the file name, the uri, the text
    of the document as it was read (not the parsed value) and the data
    map. *)
Theorem refresh_posts_data this panel vegaSpec spec t data :
  _panel this = Some panel ->
  openTextDocument (_uri this) = Some vegaSpec ->
  JSON_parse vegaSpec = Ok spec ->
  load this spec = Run t (Ok data) ->
  reload this
  = Run ([Reveal panel (viewColumn panel) true; OpenTextDocument (_uri this);
          LogMessage Debug "refresh(): file:"] ++ t ++
         [PostMessage panel
            (RefreshMessage (_fileName this) (Uri_toString (_uri this) false)
               vegaSpec data)]) (Ok tt) /\
  posted (trace_of (reload this))
  = [RefreshMessage (_fileName this) (Uri_toString (_uri this) false) vegaSpec data].
Proof.
  intros Hpanel Hopen Hparse Hload.
  pose proof (getData_shape fsPath path_join path_dirname fs this spec) as [Hshape _].
  rewrite Hload in Hshape. simpl in Hshape.
  rewrite (refresh_opened this panel vegaSpec Hpanel Hopen), refresh_document_cases,
    Hparse, Hload.
  split; [reflexivity|]. simpl. rewrite posted_app, (posted_log_or_fs t Hshape).
  reflexivity.
Qed.

(** X8. When the document parses and [getData] throws (a [null] in the
    spec, a url that is no string, a url that names a directory),
    [refresh] catches the error, logs it and posts it to the webview; no
    refresh message is posted. *)
Theorem refresh_reports_data_error this panel vegaSpec spec t error :
  _panel this = Some panel ->
  openTextDocument (_uri this) = Some vegaSpec ->
  JSON_parse vegaSpec = Ok spec ->
  load this spec = Run t (Throw error) ->
  reload this
  = Run ([Reveal panel (viewColumn panel) true; OpenTextDocument (_uri this);
          LogMessage Debug "refresh(): file:"] ++ t ++
         [LogMessage Error "refresh():"; PostMessage panel (ErrorMessage error)])
      (Ok tt) /\
  posted (trace_of (reload this)) = [ErrorMessage error].
Proof.
  intros Hpanel Hopen Hparse Hload.
  pose proof (getData_shape fsPath path_join path_dirname fs this spec) as [Hshape _].
  rewrite Hload in Hshape. simpl in Hshape.
  rewrite (refresh_opened this panel vegaSpec Hpanel Hopen), refresh_document_cases,
    Hparse, Hload.
  split; [reflexivity|]. simpl. rewrite posted_app, (posted_log_or_fs t Hshape).
  reflexivity.
Qed.

Lemma refresh_document_posted this panel vegaSpec :
  length (posted (trace_of (refresh_document fsPath Uri_toString path_join path_dirname
                              JSON_parse fs this panel vegaSpec))) <= 1 /\
  (JSON_parse vegaSpec <> OutOfFuel ->
   exists msg,
     posted (trace_of (refresh_document fsPath Uri_toString path_join path_dirname
                         JSON_parse fs this panel vegaSpec)) = [msg]).
Proof.
  rewrite refresh_document_cases.
  destruct (JSON_parse vegaSpec) as [spec|e|]; simpl.
  - pose proof (getData_shape fsPath path_join path_dirname fs this spec)
      as [Hshape Hfuel].
    destruct (load this spec) as [t [data|e|]]; simpl in *;
      try rewrite posted_app, (posted_log_or_fs t Hshape); simpl;
      try (split; [lia|eauto]).
    congruence.
  - split; [lia|eauto].
  - split; [lia|congruence].
Qed.

(** X9. Whatever message the webview sends, the listener posts at most
    one message back; it makes no call at all unless [message.command] is
    the string [refresh]; and on a [refresh] command it posts exactly one
    message when the document opens. *)
Theorem receiveMessage_posts_at_most_once this message :
  length (posted (trace_of
            (receiveMessage fsPath Uri_toString path_join path_dirname openTextDocument
               JSON_parse fs this message))) <= 1 /\
  (forall command,
     message_command message = Ok command -> command <> Str "refresh" ->
     receiveMessage fsPath Uri_toString path_join path_dirname openTextDocument
       JSON_parse fs this message = Run [] (Ok tt)) /\
  (forall panel vegaSpec,
     message_command message = Ok (Str "refresh") ->
     _panel this = Some panel ->
     openTextDocument (_uri this) = Some vegaSpec ->
     JSON_parse vegaSpec <> OutOfFuel ->
     exists msg,
       posted (trace_of
                 (receiveMessage fsPath Uri_toString path_join path_dirname
                    openTextDocument JSON_parse fs this message)) = [msg]).
Proof.
  assert (length (posted (trace_of (reload this))) <= 1) as Hreload.
  { destruct (_panel this) as [panel|] eqn:Hpanel.
    - destruct (openTextDocument (_uri this)) as [vegaSpec|] eqn:Hopen.
      + rewrite (refresh_opened this panel vegaSpec Hpanel Hopen).
        pose proof (refresh_document_posted this panel vegaSpec) as [Hle _].
        destruct (refresh_document _ _ _ _ _ _ _ _ _) as [t r]. exact Hle.
      + unfold refresh, the_panel. rewrite Hpanel, Hopen. simpl. lia.
    - unfold refresh, the_panel. rewrite Hpanel. simpl. lia. }
  unfold receiveMessage. split; [|split].
  - destruct (message_command message) as [command| |]; simpl; try lia.
    destruct (is_refresh command); simpl; [|lia].
    destruct (reload this) as [t r]. exact Hreload.
  - intros command -> Hcommand.
    assert (is_refresh command = false) as Hno.
    { destruct command as [| | | |s| | |]; try reflexivity. simpl.
      apply String.eqb_neq. congruence. }
    unfold mbind, io_bind, lift. simpl. rewrite Hno. reflexivity.
  - intros panel vegaSpec -> Hpanel Hopen Hparse. simpl.
    rewrite (refresh_opened this panel vegaSpec Hpanel Hopen).
    pose proof (refresh_document_posted this panel vegaSpec) as [_ Hone].
    destruct (Hone Hparse) as [msg Hmsg]. exists msg.
    destruct (refresh_document _ _ _ _ _ _ _ _ _) as [t r]. exact Hmsg.
Qed.

(** X10. Constructed without a panel, a preview creates one, with the
    title of its view type, scripts, command uris and retained context
    enabled and the local resource roots of [getLocalResourceRoots]
    (among them the scripts directory of the extension); it registers its
    three listeners on the created panel and then sets its html, the
    template with the scripts path replaced. *)
Theorem new_DataPreview_creates_panel viewType extensionPath uri viewColumn template :
  exists roots title html panel,
    getLocalResourceRoots fsPath Uri_file path_join path_dirname getWorkspaceFolder
      (MkDataPreview extensionPath uri (with_scheme uri "data")
         (path_basename (fsPath uri)) title html None)
    = Run [LogMessage Debug "getLocalResourceRoots():"] (Ok roots) /\
    In (Uri_file (path_join extensionPath "scripts")) roots /\
    title = (if String.eqb viewType "data.preview"
             then "Data Preview " +:+ path_basename (fsPath uri) +:+ " 🈸"
             else "Data Help") /\
    html = replace_scripts (content template)
             (Uri_toString
                (with_scheme (Uri_file (path_join extensionPath "scripts"))
                   "vscode-resource") true) /\
    panel = createWebviewPanel viewType title viewColumn
              (MkWebviewOptions true true true roots) /\
    new_DataPreview fsPath Uri_file Uri_toString path_join path_dirname path_basename
      replace_scripts getWorkspaceFolder createWebviewPanel
      viewType extensionPath uri viewColumn template None
    = Run [LogMessage Debug "getLocalResourceRoots():";
           CreateWebviewPanel viewType title viewColumn
             (MkWebviewOptions true true true roots);
           OnDidDispose panel; OnDidChangeViewState panel; OnDidReceiveMessage panel;
           SetHtml panel html]
        (Ok (MkDataPreview extensionPath uri (with_scheme uri "data")
               (path_basename (fsPath uri)) title html (Some panel))).
Proof.
  eexists _, _, _, _. split; [reflexivity|].
  split; [apply in_or_app; right; left; reflexivity|].
  repeat split.
Qed.

End Host.

(** On the layered chart the only entry is that of [a.csv]. *)
Lemma getData_entries_sound_layered :
  disk (resolve posix_fsPath posix_join posix_dirname chart_preview "a.csv")
  = Some (File "x,y").
Proof.
  refine (proj1 (proj2 (proj2 (proj2
    (getData_entries_sound posix_fsPath posix_join posix_dirname disk chart_preview
       layered_spec _ (<["a.csv" := "x,y"]> empty) "a.csv" "x,y" _ _))))).
  - vm_compute. reflexivity.
  - vm_compute. reflexivity.
Defined.

(** The chart with a directory as its data does not load, the layered
    chart does. *)
Lemma getData_returns_iff_layered :
  exists t m,
    getData posix_fsPath posix_join posix_dirname disk chart_preview layered_spec
    = Run t (Ok m).
Proof.
  apply (getData_returns_iff posix_fsPath posix_join posix_dirname disk chart_preview
           layered_spec).
  exists [Str "a.csv"; Str "b.csv"; Str "c.csv"]. split; [vm_compute; reflexivity|].
  split.
  - intros url [<-|[<-|[<-|[]]]]; eexists; reflexivity.
  - intros s [E|[E|[E|[]]]] _; inversion E; subst s; vm_compute; discriminate.
Defined.

(** A number as url: [getData] throws after its first log call. *)
Lemma getData_rejects_number_url :
  exists e,
    getData posix_fsPath posix_join posix_dirname disk chart_preview number_url_spec
    = Run [LogMessage Debug "getData(): dataUrls:"] (Throw e).
Proof.
  apply (getData_rejects_non_string_url posix_fsPath posix_join posix_dirname disk
           chart_preview number_url_spec [Num 5] (Num 5)).
  - vm_compute. reflexivity.
  - left. reflexivity.
  - intros s. discriminate.
Defined.

(** On the layered chart: three lookups, two reads. *)
Lemma getData_calls_in_order_layered :
  exists t,
    trace_of (getData posix_fsPath posix_join posix_dirname disk chart_preview
                layered_spec) = t /\
    exists_calls t = ["a.csv"; "b.csv"; "c.csv"] /\
    read_calls t = ["a.csv"; "b.csv"].
Proof.
  eexists. split; [vm_compute; reflexivity|].
  apply (getData_calls_in_order posix_fsPath posix_join posix_dirname disk chart_preview
           layered_spec [Str "a.csv"; Str "b.csv"; Str "c.csv"] _
           (<["a.csv" := "x,y"]> empty)).
  - vm_compute. reflexivity.
  - vm_compute. reflexivity.
Defined.

(** The layered chart is posted with its text and the text of [a.csv]. *)
Lemma refresh_posts_data_layered :
  posted (trace_of (refresh posix_fsPath uri_text posix_join posix_dirname
                      layered_document layered_parse disk chart_preview))
  = [RefreshMessage "chart.vl.json" "file:///work/chart.vl.json" layered_text
       (<["a.csv" := "x,y"]> empty)].
Proof.
  eapply (refresh_posts_data posix_fsPath uri_text posix_join posix_dirname
            layered_document layered_parse disk chart_preview chart_panel layered_text
            layered_spec).
  - reflexivity.
  - reflexivity.
  - reflexivity.
  - vm_compute. reflexivity.
Defined.

(** The chart with a [null] data layer: the [TypeError] is posted. *)
Lemma refresh_reports_null_data :
  posted (trace_of (refresh posix_fsPath uri_text posix_join posix_dirname
                      null_data_document null_data_parse disk chart_preview))
  = [ErrorMessage (TypeError "Cannot read property 'url' of null")].
Proof.
  eapply (refresh_reports_data_error posix_fsPath uri_text posix_join posix_dirname
            null_data_document null_data_parse disk chart_preview chart_panel
            "{null data}" null_data_spec).
  - reflexivity.
  - reflexivity.
  - reflexivity.
  - vm_compute. reflexivity.
Defined.

(** A message with another command is ignored. *)
Lemma receiveMessage_ignores_other_command :
  receiveMessage posix_fsPath uri_text posix_join posix_dirname layered_document
    layered_parse disk chart_preview (Obj [("command", Str "reload")])
  = Run [] (Ok tt).
Proof.
  apply (proj1 (proj2 (receiveMessage_posts_at_most_once posix_fsPath uri_text
                         posix_join posix_dirname layered_document layered_parse disk
                         chart_preview (Obj [("command", Str "reload")])))
           (Str "reload")).
  - reflexivity.
  - discriminate.
Defined.

(** *** The provider *)

Section Provider.

Import Json5DataProvider.

Variable T : Type.
Variable readDataFile : string -> res string.
Variable json5_parse : string -> res value.
Variable convertJsonData : value -> res T.

Local Abbreviation provide :=
  (Json5DataProvider.getData T readDataFile json5_parse convertJsonData).

(** X11. Whatever the file holds, the provider calls [loadData] at most
    once and shows at most one error message; what it loads is always an
    output of [convertJsonData], of the parsed value or, after an error
    was shown, of the empty array; and an error message is shown exactly
    when reading or parsing throws. *)
Theorem getData_loads_converted_once dataUrl parseOptions :
  length (loaded (trace_of (provide dataUrl parseOptions))) <= 1 /\
  length (shown (trace_of (provide dataUrl parseOptions))) <= 1 /\
  (forall d, In d (loaded (trace_of (provide dataUrl parseOptions))) ->
     (shown (trace_of (provide dataUrl parseOptions)) = [] /\
      exists content parsed,
        readDataFile dataUrl = Ok content /\ json5_parse content = Ok parsed /\
        convertJsonData parsed = Ok d) \/
     (shown (trace_of (provide dataUrl parseOptions)) <> [] /\
      convertJsonData (Arr []) = Ok d)) /\
  (shown (trace_of (provide dataUrl parseOptions)) <> [] <->
   (exists e, readDataFile dataUrl = Throw e) \/
   (exists content e, readDataFile dataUrl = Ok content /\
                      json5_parse content = Throw e)).
Proof.
  unfold Json5DataProvider.getData.
  destruct (readDataFile dataUrl) as [content|e|] eqn:Hread; simpl.
  - destruct (json5_parse content) as [parsed|e|] eqn:Hparse; simpl.
    + assert (~ ((exists e, @Ok string content = Throw e) \/
                 (exists c e, Ok content = Ok c /\ json5_parse c = Throw e))) as Hno.
      { intros [[e He]|(c & e & Hc & He)]; [discriminate|]. congruence. }
      destruct (convertJsonData parsed) as [d|e|] eqn:Hconvert; simpl;
        (split; [lia|]); (split; [lia|]).
      * split; [|split; [congruence|intros H; destruct (Hno H)]].
        intros d' [<-|[]]. left. split; [reflexivity|eauto].
      * split; [intros d' []|split; [congruence|intros H; destruct (Hno H)]].
      * split; [intros d' []|split; [congruence|intros H; destruct (Hno H)]].
    + assert ((exists e', @Ok string content = Throw e') \/
              (exists c e', Ok content = Ok c /\ json5_parse c = Throw e')) as Hyes
        by (right; eauto).
      destruct (convertJsonData (Arr [])) as [d|e'|] eqn:Hconvert; simpl;
        (split; [lia|]); (split; [lia|]).
      * split; [|split; [intros _; exact Hyes|discriminate]].
        intros d' [<-|[]]. right. split; [discriminate|reflexivity].
      * split; [intros d' []|split; [intros _; exact Hyes|discriminate]].
      * split; [intros d' []|split; [intros _; exact Hyes|discriminate]].
    + split; [lia|]. split; [lia|]. split; [intros d' []|].
      split; [congruence|]. intros [[e' He]|(c & e' & Hc & He)]; congruence.
  - assert ((exists e', @Throw string e = Throw e') \/
            (exists c e', @Throw string e = Ok c /\ json5_parse c = Throw e')) as Hyes
      by (left; eauto).
    destruct (convertJsonData (Arr [])) as [d|e'|] eqn:Hconvert; simpl;
      (split; [lia|]); (split; [lia|]).
    + split; [|split; [intros _; exact Hyes|discriminate]].
      intros d' [<-|[]]. right. split; [discriminate|reflexivity].
    + split; [intros d' []|split; [intros _; exact Hyes|discriminate]].
    + split; [intros d' []|split; [intros _; exact Hyes|discriminate]].
  - split; [lia|]. split; [lia|]. split; [intros d' []|].
    split; [congruence|]. intros [[e' He]|(c & e' & Hc & He)]; congruence.
Qed.

(** X12. An exception of [convertJsonData] is not caught: when the file
    is read and parsed and the conversion of the parsed value throws,
    [getData] throws that error, makes no call at all, and [loadData] is
    never called. *)
Theorem getData_convert_error_propagates dataUrl parseOptions content parsed error :
  readDataFile dataUrl = Ok content ->
  json5_parse content = Ok parsed ->
  convertJsonData parsed = Throw error ->
  provide dataUrl parseOptions = Run [] (Throw error) /\
  loaded (trace_of (provide dataUrl parseOptions)) = [] /\
  shown (trace_of (provide dataUrl parseOptions)) = [].
Proof.
  intros Hread Hparse Hconvert.
  assert (provide dataUrl parseOptions = Run [] (Throw error)) as E.
  { unfold Json5DataProvider.getData.
    rewrite Hread. simpl. rewrite Hparse. simpl. rewrite Hconvert. reflexivity. }
  rewrite E. repeat split.
Qed.

End Provider.

(** A file that holds [null], with a conversion that refuses it. *)
Lemma getData_convert_error_null :
  Json5DataProvider.getData value read_null parse_null rows_or_throw "/work/null.json5"
    Undefined
  = Run [] (Throw (TypeError "Cannot convert undefined or null to object")).
Proof.
  apply (getData_convert_error_propagates value read_null parse_null rows_or_throw
           "/work/null.json5" Undefined "null" Null).
  - reflexivity.
  - reflexivity.
  - reflexivity.
Defined.

(** A missing file: one message shown, the empty array loaded. *)
Lemma getData_loads_converted_once_missing :
  length (Json5DataProvider.loaded
            (trace_of (Json5DataProvider.getData value read_json5 parse_json5 to_rows
                         "/work/none.json5" Undefined))) <= 1.
Proof.
  apply (getData_loads_converted_once value read_json5 parse_json5 to_rows
           "/work/none.json5" Undefined).
Defined.

(** *** Disposal *)

(** X13. [dispose] removes the preview from the preview manager, disposes
    the panel, and then empties [_disposables]: every defined entry the
    host left in the array is disposed exactly once, the last registered
    first, undefined entries are skipped, and the array is left empty.
    Any fuel beyond the length of the array gives the loop the same
    result. *)
Theorem dispose_empties panel_disposed this panel disposables :
  _panel this = Some panel ->
  dispose panel_disposed this disposables
  = Run ([PreviewManagerRemove this; PanelDispose panel] ++
         map ItemDispose (rev (defined_items (panel_disposed disposables))))
      (Ok []) /\
  forall fuel, length (panel_disposed disposables) < fuel ->
    dispose_loop fuel (panel_disposed disposables)
    = dispose_loop (S (length (panel_disposed disposables))) (panel_disposed disposables).
Proof.
  intros Hpanel. split.
  - unfold dispose. rewrite Hpanel.
    remember (S (length (panel_disposed disposables))) as fuel eqn:Hfuel.
    unfold mbind, io_bind, lift, emit. simpl.
    rewrite dispose_loop_drains by lia. reflexivity.
  - intros fuel Hfuel. rewrite !dispose_loop_drains by lia. reflexivity.
Qed.

(** Three entries, the second undefined, with a host that leaves the
    array as it is. *)
Lemma dispose_empties_three :
  dispose (fun items => items) chart_preview [Some 1; None; Some 3]
  = Run [PreviewManagerRemove chart_preview; PanelDispose chart_panel;
         ItemDispose 3; ItemDispose 1] (Ok []).
Proof.
  apply (dispose_empties (fun items => items) chart_preview chart_panel
           [Some 1; None; Some 3]).
  reflexivity.
Defined.

End ExtraProperties.
